(** * CasaOS-Common, package [init_system]: a shallow embedding

    The package gives one interface, [InitManager], over two init systems:
    [SystemCtl] talks to systemd over D-Bus, [OpenRc] runs the [rc-service]
    and [rc-update] executables.  The functions below follow
    [utils/init_system/systemctl.go], [utils/init_system/openrc.go] and the
    file that declares [InitManager] and [NewInitManager].

    Everything outside the package (the file system, the process launcher,
    the systemd connection, and the two [path/filepath] functions whose
    internals play no role here) is collected in a [Host] record over an
    abstract world [W].  A package function is a computation in the monad
    [M]: it threads the world and emits, in order, one [Event] for every
    request it sends to the outside. *)

From Stdlib Require Import ZArith Ascii Strings.Byte DecimalString Decimal Lia.
From stdpp Require Import base option list strings gmap.

(** ** Go values *)

Inductive Errno : Set := ENOENT | EACCES | ENOTDIR | ELOOP | EIO | ENOEXEC.

(** The error values that can reach this package.  The first six are the
    package-level [errors.New] values of systemctl.go: each [errors.New] call
    allocates its own value, so they are pairwise different. *)
Inductive error : Type :=
| ErrorCanceled
| ErrorTimeout
| ErrorFailed
| ErrorDependency
| ErrorSkipped
| ErrorUnknown
| ErrBadPattern                                   (* path.ErrBadPattern *)
| ExitError (code : Z)                            (* *exec.ExitError *)
| PathError (op path : string) (errno : Errno)    (* *fs.PathError *)
| DbusError (msg : string).                       (* anything the bus returns *)

(** A value of Go type [error] is [nil] or an error. *)
Abbreviation go_error := (option error).

#[global] Instance Errno_eq_dec : EqDecision Errno.
Proof. solve_decision. Defined.

#[global] Instance error_eq_dec : EqDecision error.
Proof. solve_decision. Defined.

(** The result of a call to the outside, [(T, error)] with the convention
    that [T] is meaningful only when the error is [nil]. *)
Inductive result (A : Type) : Type :=
| Ok (a : A)
| Err (e : error).
Arguments Ok {A} a.
Arguments Err {A} e.

(** What a D-Bus variant can hold, as far as this package looks at it. *)
Inductive GoValue : Type :=
| VString (s : string)
| VBool (b : bool)
| VUint64 (n : N).

(** [v == "..."] for [v] of type [interface{}]; [None] is the nil interface. *)
Definition iface_eq_string (v : option GoValue) (s : string) : bool :=
  match v with
  | Some (VString s') => String.eqb s' s
  | _ => false
  end.

Record UnitFile : Type := { Path : string; Type_ : string }.
Record Property : Type := { PropName : string; PropValue : GoValue }.

Record InitService : Type := { Name : string; Running : bool }.

(** ** systemctl.go: job results *)

Definition ResultDone : string := "done".
Definition ResultCanceled : string := "canceled".
Definition ResultTimeout : string := "timeout".
Definition ResultFailed : string := "failed".
Definition ResultDependency : string := "dependency".
Definition ResultSkipped : string := "skipped".

Definition ErrorMap : gmap string go_error :=
  <[ResultDone := None]>
  (<[ResultCanceled := Some ErrorCanceled]>
  (<[ResultTimeout := Some ErrorTimeout]>
  (<[ResultFailed := Some ErrorFailed]>
  (<[ResultDependency := Some ErrorDependency]>
  (<[ResultSkipped := Some ErrorSkipped]> ∅))))).

(** ** Library functions the package calls: strings, fmt *)

(** Slices [s[n:]] and [s[:n]] of a string. *)
Fixpoint str_from (n : nat) (s : string) : string :=
  match n, s with
  | O, _ => s
  | S n', String _ s' => str_from n' s'
  | S _, EmptyString => EmptyString
  end.

Fixpoint str_upto (n : nat) (s : string) : string :=
  match n, s with
  | O, _ => EmptyString
  | S n', String c s' => String c (str_upto n' s')
  | S _, EmptyString => EmptyString
  end.

Definition strings_HasSuffix (s suffix : string) : bool :=
  (String.length suffix <=? String.length s)
  && String.eqb (str_from (String.length s - String.length suffix) s) suffix.

Definition strings_CutSuffix (s suffix : string) : string * bool :=
  if negb (strings_HasSuffix s suffix) then (s, false)
  else (str_upto (String.length s - String.length suffix) s, true).

(** [strings.Index]: position of the first occurrence, [None] for -1. *)
Fixpoint strings_Index (s substr : string) : option nat :=
  if String.prefix substr s then Some O
  else match s with
       | EmptyString => None
       | String _ s' => S <$> strings_Index s' substr
       end.

(** The loop of [genSplit] for a non-empty separator; it stops at the first
    [Index] that finds nothing, which happens within [length s] rounds. *)
Fixpoint genSplit_loop (fuel : nat) (s sep : string) : list string :=
  match fuel with
  | O => [s]
  | S fuel' =>
    match strings_Index s sep with
    | None => [s]
    | Some m => str_upto m s :: genSplit_loop fuel' (str_from (m + String.length sep) s) sep
    end
  end.

(** [strings.Split].  With an empty separator Go splits after each UTF-8
    sequence; that case is rendered bytewise and is not used by the package,
    whose only call passes a newline. *)
Definition strings_Split (s sep : string) : list string :=
  match sep with
  | EmptyString => (fun c => String c EmptyString) <$> String.list_ascii_of_string s
  | _ => genSplit_loop (String.length s) s sep
  end.

Definition newline : string := String (ascii_of_nat 10) EmptyString.

(** [fmt.Sprint] applied to a [[]byte]: the operand is printed with [%v],
    which for a byte slice is [fmtBytes]: an opening bracket, the bytes in
    decimal separated by single spaces, a closing bracket. *)
Definition fmt_decimal (n : N) : string := NilZero.string_of_uint (N.to_uint n).

Fixpoint fmtBytes_loop (i : nat) (v : list byte) : string :=
  match v with
  | [] => ""
  | c :: v' =>
    (if (0 <? i) then " " else "") +:+ fmt_decimal (Byte.to_N c)
      +:+ fmtBytes_loop (S i) v'
  end.

Definition fmt_Sprint (v : list byte) : string :=
  "[" +:+ fmtBytes_loop 0 v +:+ "]".

(** [string(out)]: the bytes read as text. *)
Definition string_of_bytes (v : list byte) : string := String.string_of_list_byte v.

(** ** The outside world *)

(** How a launched command ends: it ran and exited with a status, or it
    could not be started. *)
Inductive ProcOutcome : Type :=
| Exited (code : Z) (stdout : list byte)
| StartFailed (errno : Errno).

Inductive Event : Type :=
| EvStat (path : string)
| EvExec (path : string) (args : list string)
| EvConnect
| EvClose
| EvListUnitFiles
| EvListUnitFilesByPatterns (states patterns : list string)
| EvGetUnitProperty (unit prop : string)
| EvGetUnitProperties (unit : string)
| EvEnableUnitFiles (files : list string) (runtime force : bool)
| EvDisableUnitFiles (files : list string) (runtime : bool)
| EvStartUnit (name mode : string)
| EvStopUnit (name mode : string)
| EvReload.

#[global] Instance Event_eq_dec : EqDecision Event.
Proof. solve_decision. Defined.

Record Host (W Conn : Type) : Type := {
  (* path/filepath, taken as given *)
  filepath_Match : string -> string -> bool * go_error;
  filepath_Base : string -> string;
  (* os, os/exec *)
  os_Stat : string -> W -> go_error * W;
  proc_run : string -> list string -> W -> ProcOutcome * W;
  (* github.com/coreos/go-systemd/v22/dbus; a start or stop job that is
     accepted delivers exactly one outcome string on its channel *)
  dbus_NewSystemdConnectionContext : W -> result Conn * W;
  conn_Close : Conn -> W -> W;
  conn_ListUnitFilesContext : Conn -> W -> result (list UnitFile) * W;
  conn_ListUnitFilesByPatternsContext :
    Conn -> list string -> list string -> W -> result (list UnitFile) * W;
  conn_GetUnitPropertyContext : Conn -> string -> string -> W -> result Property * W;
  conn_GetUnitPropertiesContext : Conn -> string -> W -> result (gmap string GoValue) * W;
  conn_EnableUnitFilesContext : Conn -> list string -> bool -> bool -> W -> go_error * W;
  conn_DisableUnitFilesContext : Conn -> list string -> bool -> W -> go_error * W;
  conn_StartUnitContext : Conn -> string -> string -> W -> result string * W;
  conn_StopUnitContext : Conn -> string -> string -> W -> result string * W;
  conn_ReloadContext : Conn -> W -> go_error * W
}.

Arguments filepath_Match {W Conn} _ _ _.
Arguments filepath_Base {W Conn} _ _.
Arguments os_Stat {W Conn} _ _ _.
Arguments proc_run {W Conn} _ _ _ _.
Arguments dbus_NewSystemdConnectionContext {W Conn} _ _.
Arguments conn_Close {W Conn} _ _ _.
Arguments conn_ListUnitFilesContext {W Conn} _ _ _.
Arguments conn_ListUnitFilesByPatternsContext {W Conn} _ _ _ _ _.
Arguments conn_GetUnitPropertyContext {W Conn} _ _ _ _ _.
Arguments conn_GetUnitPropertiesContext {W Conn} _ _ _ _.
Arguments conn_EnableUnitFilesContext {W Conn} _ _ _ _ _ _.
Arguments conn_DisableUnitFilesContext {W Conn} _ _ _ _ _.
Arguments conn_StartUnitContext {W Conn} _ _ _ _ _.
Arguments conn_StopUnitContext {W Conn} _ _ _ _ _.
Arguments conn_ReloadContext {W Conn} _ _ _.

(** ** The monad of package functions *)

Definition M (W A : Type) : Type := W -> A * W * list Event.

Definition ret {W A} (a : A) : M W A := fun w => (a, w, []).

Definition bind {W A B} (m : M W A) (k : A -> M W B) : M W B :=
  fun w =>
    let '(a, w1, e1) := m w in
    let '(b, w2, e2) := k a w1 in
    (b, w2, e1 ++ e2).

(** One request to the outside: perform it and record it. *)
Definition request {W A} (ev : Event) (f : W -> A * W) : M W A :=
  fun w => let '(a, w') := f w in (a, w', [ev]).

(** [defer fin; body]: [fin] runs after [body], whatever [body] returns. *)
Definition defer {W A} (fin : M W unit) (body : M W A) : M W A :=
  bind body (fun a => bind fin (fun _ => ret a)).

Declare Scope go_scope.
Delimit Scope go_scope with go.
Notation "x <- m ;; k" := (bind m (fun x => k))
  (at level 100, m at next level, right associativity) : go_scope.

Definition result_of {W A} (r : A * W * list Event) : A := r.1.1.
Definition world_of {W A} (r : A * W * list Event) : W := r.1.2.
Definition events_of {W A} (r : A * W * list Event) : list Event := r.2.

(** ** systemctl.go *)

Section SystemCtl.
Context {W Conn : Type} (h : Host W Conn).
Local Open Scope go_scope.

Definition NewSystemdConnectionContext : M W (result Conn) :=
  request EvConnect (dbus_NewSystemdConnectionContext h).

Definition Close (conn : Conn) : M W unit :=
  request EvClose (fun w => (tt, conn_Close h conn w)).

Definition ListUnitFilesContext (conn : Conn) : M W (result (list UnitFile)) :=
  request EvListUnitFiles (conn_ListUnitFilesContext h conn).

Definition ListUnitFilesByPatternsContext (conn : Conn) (states patterns : list string)
  : M W (result (list UnitFile)) :=
  request (EvListUnitFilesByPatterns states patterns)
          (conn_ListUnitFilesByPatternsContext h conn states patterns).

Definition GetUnitPropertyContext (conn : Conn) (unit prop : string) : M W (result Property) :=
  request (EvGetUnitProperty unit prop) (conn_GetUnitPropertyContext h conn unit prop).

Definition GetUnitPropertiesContext (conn : Conn) (unit : string)
  : M W (result (gmap string GoValue)) :=
  request (EvGetUnitProperties unit) (conn_GetUnitPropertiesContext h conn unit).

Definition EnableUnitFilesContext (conn : Conn) (files : list string) (runtime force : bool)
  : M W go_error :=
  request (EvEnableUnitFiles files runtime force)
          (conn_EnableUnitFilesContext h conn files runtime force).

Definition DisableUnitFilesContext (conn : Conn) (files : list string) (runtime : bool)
  : M W go_error :=
  request (EvDisableUnitFiles files runtime) (conn_DisableUnitFilesContext h conn files runtime).

(** [StartUnitContext] with a fresh channel, followed by the receive
    [<-ch]: the value is the string that arrives on the channel. *)
Definition StartUnitContext (conn : Conn) (name mode : string) : M W (result string) :=
  request (EvStartUnit name mode) (conn_StartUnitContext h conn name mode).

Definition StopUnitContext (conn : Conn) (name mode : string) : M W (result string) :=
  request (EvStopUnit name mode) (conn_StopUnitContext h conn name mode).

Definition ReloadContext (conn : Conn) : M W go_error :=
  request EvReload (conn_ReloadContext h conn).

Definition SystemCtl_IsServiceEnabled (name : string) : M W (bool * go_error) :=
  c <- NewSystemdConnectionContext ;;
  match c with
  | Err err => ret (false, Some err)
  | Ok conn =>
    defer (Close conn)
      (p <- GetUnitPropertyContext conn name "UnitFileState" ;;
       match p with
       | Err err => ret (false, Some err)
       | Ok property =>
         if iface_eq_string (Some (PropValue property)) "enabled"
         then ret (true, None)
         else ret (false, None)
       end)
  end.

Definition SystemCtl_IsServiceRunning (name : string) : M W (bool * go_error) :=
  c <- NewSystemdConnectionContext ;;
  match c with
  | Err err => ret (false, Some err)
  | Ok conn =>
    defer (Close conn)
      (p <- GetUnitPropertyContext conn name "ActiveState" ;;
       match p with
       | Err err => ret (false, Some err)
       | Ok property => ret (iface_eq_string (Some (PropValue property)) "active", None)
       end)
  end.

Definition SystemCtl_StartService (name : string) : M W go_error :=
  c <- NewSystemdConnectionContext ;;
  match c with
  | Err err => ret (Some err)
  | Ok conn =>
    defer (Close conn)
      (r <- StartUnitContext conn name "replace" ;;
       match r with
       | Err err => ret (Some err)
       | Ok result =>
         if negb (String.eqb result ResultDone) then
           match ErrorMap !! result with
           | None => ret (Some ErrorUnknown)
           | Some err => ret err
           end
         else ret None
       end)
  end.

Definition SystemCtl_StopService (name : string) : M W go_error :=
  c <- NewSystemdConnectionContext ;;
  match c with
  | Err err => ret (Some err)
  | Ok conn =>
    defer (Close conn)
      (r <- StopUnitContext conn name "replace" ;;
       match r with
       | Err err => ret (Some err)
       | Ok result =>
         if negb (String.eqb result ResultDone) then
           match ErrorMap !! result with
           | None => ret (Some ErrorUnknown)
           | Some err => ret err
           end
         else ret None
       end)
  end.

Definition SystemCtl_EnableService (name : string) : M W go_error :=
  c <- NewSystemdConnectionContext ;;
  match c with
  | Err err => ret (Some err)
  | Ok conn =>
    defer (Close conn)
      (e <- EnableUnitFilesContext conn [name] false true ;;
       match e with
       | Some err => ret (Some err)
       | None =>
         p <- GetUnitPropertyContext conn name "ActiveState" ;;
         match p with
         | Err err => ret (Some err)
         | Ok property =>
           if negb (iface_eq_string (Some (PropValue property)) "active")
           then SystemCtl_StartService name
           else ret None
         end
       end)
  end.

Definition SystemCtl_DisableService (name : string) : M W go_error :=
  c <- NewSystemdConnectionContext ;;
  match c with
  | Err err => ret (Some err)
  | Ok conn =>
    defer (Close conn)
      (p <- GetUnitPropertiesContext conn name ;;
       match p with
       | Err err => ret (Some err)
       | Ok properties =>
         if iface_eq_string (properties !! "ActiveState") "active"
         then SystemCtl_StopService name
         else
           e <- DisableUnitFilesContext conn [name] false ;;
           match e with
           | Some err => ret (Some err)
           | None => ret None
           end
       end)
  end.

Definition SystemCtl_Reload : M W go_error :=
  c <- NewSystemdConnectionContext ;;
  match c with
  | Err err => ret (Some err)
  | Ok conn => defer (Close conn) (ReloadContext conn)
  end.

(** The [for _, file := range files] loop of [ListServices]; [services]
    is the slice built so far. *)
Fixpoint SystemCtl_probe_files (files : list UnitFile) (services : list InitService)
  : M W (list InitService) :=
  match files with
  | [] => ret services
  | file :: files' =>
    let serviceName := filepath_Base h (Path file) in
    r <- SystemCtl_IsServiceRunning serviceName ;;
    let running := r.1 in
    let err := r.2 in
    SystemCtl_probe_files files'
      (services ++ [{| Name := serviceName;
                       Running := bool_decide (err = None) && running |}])
  end.

Definition SystemCtl_ListServices (pattern : string) : M W (list InitService * go_error) :=
  c <- NewSystemdConnectionContext ;;
  match c with
  | Err err => ret ([], Some err)
  | Ok conn =>
    defer (Close conn)
      (let probe files :=
         (services <- SystemCtl_probe_files files [] ;;
          ret (services, None)) in
       if String.eqb pattern "" || String.eqb pattern "*" then
         l <- ListUnitFilesContext conn ;;
         match l with
         | Err err => ret ([], Some err)
         | Ok _files => probe _files
         end
       else
         l <- ListUnitFilesByPatternsContext conn [] [pattern] ;;
         match l with
         | Err err => ret ([], Some err)
         | Ok _files => probe _files
         end)
  end.

End SystemCtl.

(** ** openrc.go *)

Definition serviceCmd : Type := string.
Definition cmdStart : serviceCmd := "start".
Definition cmdStop : serviceCmd := "stop".
Definition cmdList : serviceCmd := "list".
Definition cmdStatus : serviceCmd := "status".

Section OpenRc.
Context {W Conn : Type} (h : Host W Conn).
Local Open Scope go_scope.

(** [exec.Command(path, args...)] followed by [Output()] or [Run()].  The
    path is absolute, so nothing is looked up: a command that cannot be
    started gives a [*fs.PathError], one that ran and exited non-zero an
    [*exec.ExitError]. *)
Definition exec_Cmd_Output (path : string) (args : list string) : M W (list byte * go_error) :=
  o <- request (EvExec path args) (proc_run h path args) ;;
  match o with
  | Exited code stdout =>
    if (code =? 0)%Z then ret (stdout, None) else ret (stdout, Some (ExitError code))
  | StartFailed errno => ret ([], Some (PathError "fork/exec" path errno))
  end.

Definition exec_Cmd_Run (path : string) (args : list string) : M W go_error :=
  o <- request (EvExec path args) (proc_run h path args) ;;
  match o with
  | Exited code _ => if (code =? 0)%Z then ret None else ret (Some (ExitError code))
  | StartFailed errno => ret (Some (PathError "fork/exec" path errno))
  end.

Definition RcUpdate (command name runlevel : string) : M W go_error :=
  let args := ["--quiet"; command; name; runlevel] in
  e <- exec_Cmd_Run "/sbin/rc-update" args ;;
  match e with
  | Some err => ret (Some err)
  | None => ret None
  end.

Definition RcService (name : string) (command : serviceCmd) : M W (list byte * go_error) :=
  let args : list string := [] in
  let args := if negb (String.eqb command cmdList) then args ++ ["--quiet"] else args in
  let name := (strings_CutSuffix name ".service").1 in
  let args :=
    if String.eqb command cmdStart then args ++ [name; "start"]
    else if String.eqb command cmdStop then args ++ [name; "stop"]
    else if String.eqb command cmdStatus then args ++ [name; "status"]
    else if String.eqb command cmdList then args ++ ["--list"]
    else args in
  r <- exec_Cmd_Output "/sbin/rc-service" args ;;
  match r.2 with
  | Some err => ret ([], Some err)
  | None => ret (r.1, None)
  end.

Definition RcServiceStart (name : string) : M W go_error :=
  r <- RcService name cmdStart ;;
  match r.2 with
  | Some err => ret (Some err)
  | None => ret None
  end.

Definition RcServiceStop (name : string) : M W go_error :=
  r <- RcService name cmdStop ;;
  match r.2 with
  | Some err => ret (Some err)
  | None => ret None
  end.

Definition RcServiceStatus (name : string) : M W (bool * go_error) :=
  r <- RcService name cmdStatus ;;
  match r.2 with
  | Some err =>
    match err with
    | ExitError _ => ret (false, None)
    | _ => ret (false, Some err)
    end
  | None => ret (true, None)
  end.

Definition RcServiceList : M W (list string * go_error) :=
  r <- RcService "" cmdList ;;
  match r.2 with
  | Some err => ret ([], Some err)
  | None =>
    let str_out := fmt_Sprint r.1 in
    ret (strings_Split str_out newline, None)
  end.

Definition OpenRc_IsServiceRunning (name : string) : M W (bool * go_error) :=
  RcServiceStatus name.

Definition OpenRc_IsServiceEnabled (name : string) : M W (bool * go_error) :=
  ret (false, None).

Definition OpenRc_EnableService (name : string) : M W go_error :=
  RcUpdate "add" name "default".

Definition OpenRc_DisableService (name : string) : M W go_error :=
  RcUpdate "del" name "default".

Definition OpenRc_StartService (name : string) : M W go_error :=
  RcServiceStart name.

Definition OpenRc_StopService (name : string) : M W go_error :=
  RcServiceStop name.

Definition OpenRc_Reload : M W go_error := ret None.

(** The filtering loop of [ListServices].  [range] fixes the number of
    rounds when the loop starts and reads element [i] of the backing
    array in round [i]; the body writes into the same array at [n].
    [todo] counts the rounds still to run. *)
Fixpoint OpenRc_filter_loop (pattern : string) (todo i n : nat) (svc_list : list string)
  : result (list string * nat) :=
  match todo with
  | O => Ok (svc_list, n)
  | S todo' =>
    match svc_list !! i with
    | None => Ok (svc_list, n)
    | Some svc_name =>
      let '(matched, err) := filepath_Match h pattern svc_name in
      match err with
      | Some e => Err e
      | None =>
        if matched
        then OpenRc_filter_loop pattern todo' (S i) (S n) (<[n := svc_name]> svc_list)
        else OpenRc_filter_loop pattern todo' (S i) n svc_list
      end
    end
  end.

(** The probing loop of [ListServices]. *)
Fixpoint OpenRc_probe_names (svc_list : list string) (services : list InitService)
  : M W (list InitService * go_error) :=
  match svc_list with
  | [] => ret (services, None)
  | svc_name :: svc_list' =>
    r <- OpenRc_IsServiceRunning svc_name ;;
    match r.2 with
    | Some err => ret ([], Some err)
    | None =>
      OpenRc_probe_names svc_list' (services ++ [{| Name := svc_name; Running := r.1 |}])
    end
  end.

Definition OpenRc_ListServices (pattern : string) : M W (list InitService * go_error) :=
  l <- RcServiceList ;;
  match l.2 with
  | Some err => ret ([], Some err)
  | None =>
    let svc_list := l.1 in
    if negb (String.eqb pattern "") && negb (String.eqb pattern "*") then
      match OpenRc_filter_loop pattern (length svc_list) 0 0 svc_list with
      | Err err => ret ([], Some err)
      | Ok (svc_list, n) => OpenRc_probe_names (take n svc_list) []
      end
    else OpenRc_probe_names svc_list []
  end.

End OpenRc.

(** ** The interface and the selector *)

(** A value of interface type [InitManager] is a pointer to one of the two
    empty structs; it is determined by its dynamic type. *)
Inductive InitManager : Set := SystemCtl | OpenRc.

(** [os.IsNotExist]: the error, unwrapped, is [ENOENT]. *)
Definition os_IsNotExist (err : go_error) : bool :=
  match err with
  | Some (PathError _ _ ENOENT) => true
  | _ => false
  end.

Section Selector.
Context {W Conn : Type} (h : Host W Conn).
Local Open Scope go_scope.

Definition NewInitManager : M W InitManager :=
  err <- request (EvStat "/run/systemd/system/") (os_Stat h "/run/systemd/system/") ;;
  if os_IsNotExist err then ret OpenRc else ret SystemCtl.

Definition ListServices (m : InitManager) : string -> M W (list InitService * go_error) :=
  match m with SystemCtl => SystemCtl_ListServices h | OpenRc => OpenRc_ListServices h end.

Definition IsServiceEnabled (m : InitManager) : string -> M W (bool * go_error) :=
  match m with SystemCtl => SystemCtl_IsServiceEnabled h | OpenRc => OpenRc_IsServiceEnabled end.

Definition IsServiceRunning (m : InitManager) : string -> M W (bool * go_error) :=
  match m with SystemCtl => SystemCtl_IsServiceRunning h | OpenRc => OpenRc_IsServiceRunning h end.

Definition EnableService (m : InitManager) : string -> M W go_error :=
  match m with SystemCtl => SystemCtl_EnableService h | OpenRc => OpenRc_EnableService h end.

Definition DisableService (m : InitManager) : string -> M W go_error :=
  match m with SystemCtl => SystemCtl_DisableService h | OpenRc => OpenRc_DisableService h end.

Definition StartService (m : InitManager) : string -> M W go_error :=
  match m with SystemCtl => SystemCtl_StartService h | OpenRc => OpenRc_StartService h end.

Definition StopService (m : InitManager) : string -> M W go_error :=
  match m with SystemCtl => SystemCtl_StopService h | OpenRc => OpenRc_StopService h end.

Definition Reload (m : InitManager) : M W go_error :=
  match m with SystemCtl => SystemCtl_Reload h | OpenRc => OpenRc_Reload end.

End Selector.

(** ** A small concrete host

    A machine with a handful of switches, used to run the package on
    concrete inputs.  Units have an active flag that start and stop jobs
    change; [rc-service] keeps its own list of started services. *)

Module Sim.

Record world : Type := {
  marker : go_error;              (* answer of stat on the systemd marker *)
  bus : go_error;                 (* [Some e]: connecting fails with [e] *)
  unit_files : list UnitFile;
  active : list string;           (* units whose ActiveState is "active" *)
  unreadable : list string;       (* units whose properties cannot be read *)
  job_outcome : string;           (* outcome reported for start and stop jobs *)
  rc_launch : option Errno;       (* [Some e]: commands cannot be started *)
  rc_list : list byte;            (* what [rc-service --list] prints *)
  rc_started : list string        (* services [rc-service] reports as started *)
}.

Definition mem (x : string) (l : list string) : bool := existsb (String.eqb x) l.

Definition remove (x : string) (l : list string) : list string :=
  List.filter (fun y => negb (String.eqb x y)) l.

(** Globbing with [*] and [?] only. *)
Fixpoint glob (p : string) : string -> bool :=
  match p with
  | EmptyString => fun n => match n with EmptyString => true | _ => false end
  | String c p' =>
    if Ascii.eqb c "*" then
      fix star (n : string) : bool :=
        glob p' n || match n with EmptyString => false | String _ n' => star n' end
    else if Ascii.eqb c "?" then
      fun n => match n with EmptyString => false | String _ n' => glob p' n' end
    else
      fun n => match n with
               | EmptyString => false
               | String d n' => Ascii.eqb c d && glob p' n'
               end
  end.

Definition has_char (c : ascii) (s : string) : bool :=
  existsb (Ascii.eqb c) (String.list_ascii_of_string s).

Definition Match (pattern name : string) : bool * go_error :=
  if has_char "[" pattern || has_char "\" pattern
  then (false, Some ErrBadPattern)
  else (glob pattern name, None).

Fixpoint Base_go (acc s : string) : string :=
  match s with
  | EmptyString => acc
  | String c s' =>
    if Ascii.eqb c "/" then Base_go EmptyString s'
    else Base_go (acc +:+ String c EmptyString) s'
  end.

Definition Base (path : string) : string := Base_go EmptyString path.

Definition set_active (l : list string) (w : world) : world :=
  {| marker := marker w; bus := bus w; unit_files := unit_files w; active := l;
     unreadable := unreadable w; job_outcome := job_outcome w;
     rc_launch := rc_launch w; rc_list := rc_list w; rc_started := rc_started w |}.

Definition set_rc_started (l : list string) (w : world) : world :=
  {| marker := marker w; bus := bus w; unit_files := unit_files w; active := active w;
     unreadable := unreadable w; job_outcome := job_outcome w;
     rc_launch := rc_launch w; rc_list := rc_list w; rc_started := l |}.

Definition active_state (unit : string) (w : world) : GoValue :=
  VString (if mem unit (active w) then "active" else "inactive").

Definition run (path : string) (args : list string) (w : world) : ProcOutcome * world :=
  match rc_launch w with
  | Some e => (StartFailed e, w)
  | None =>
    match args with
    | [a] => if String.eqb a "--list" then (Exited 0 (rc_list w), w) else (Exited 1 [], w)
    | [_; n; verb] =>
      if String.eqb verb "status" then
        (if mem n (rc_started w) then Exited 0 [] else Exited 3 [], w)
      else if String.eqb verb "start" then (Exited 0 [], set_rc_started (n :: rc_started w) w)
      else if String.eqb verb "stop" then (Exited 0 [], set_rc_started (remove n (rc_started w)) w)
      else (Exited 1 [], w)
    | _ => (Exited 1 [], w)
    end
  end.

Definition job (change : list string -> list string) (w : world) : result string * world :=
  (Ok (job_outcome w),
   if String.eqb (job_outcome w) "done" then set_active (change (active w)) w else w).

Definition host : Host world unit := {|
  filepath_Match := Match;
  filepath_Base := Base;
  os_Stat := fun _ w => (marker w, w);
  proc_run := run;
  dbus_NewSystemdConnectionContext :=
    fun w => (match bus w with Some e => Err e | None => Ok tt end, w);
  conn_Close := fun _ w => w;
  conn_ListUnitFilesContext := fun _ w => (Ok (unit_files w), w);
  conn_ListUnitFilesByPatternsContext :=
    fun _ _ patterns w =>
      (Ok (List.filter (fun f => existsb (fun p => glob p (Base (Path f))) patterns)
                       (unit_files w)), w);
  conn_GetUnitPropertyContext :=
    fun _ unit prop w =>
      (if mem unit (unreadable w) then Err (DbusError "no such unit")
       else if String.eqb prop "ActiveState"
            then Ok {| PropName := prop; PropValue := active_state unit w |}
            else Ok {| PropName := prop; PropValue := VString "disabled" |}, w);
  conn_GetUnitPropertiesContext :=
    fun _ unit w =>
      (if mem unit (unreadable w) then Err (DbusError "no such unit")
       else Ok (<["ActiveState" := active_state unit w]> ∅), w);
  conn_EnableUnitFilesContext := fun _ _ _ _ w => (None, w);
  conn_DisableUnitFilesContext := fun _ _ _ w => (None, w);
  conn_StartUnitContext := fun _ name _ w => job (cons name) w;
  conn_StopUnitContext := fun _ name _ w => job (remove name) w;
  conn_ReloadContext := fun _ w => (None, w)
|}.

Definition bytes (s : string) : list byte := String.list_byte_of_string s.

(** A systemd machine with two units, one of them running. *)
Definition systemd_box : world := {|
  marker := None; bus := None;
  unit_files := [ {| Path := "/lib/systemd/system/ssh.service"; Type_ := "enabled" |};
                  {| Path := "/lib/systemd/system/cron.service"; Type_ := "enabled" |};
                  {| Path := "/lib/systemd/system/ghost.service"; Type_ := "masked" |} ];
  active := ["ssh.service"]; unreadable := ["ghost.service"];
  job_outcome := "done";
  rc_launch := Some ENOENT; rc_list := []; rc_started := []
|}.

(** An OpenRC machine: no marker, no bus. *)
Definition openrc_box : world := {|
  marker := Some (PathError "stat" "/run/systemd/system/" ENOENT);
  bus := Some (DbusError "dial unix /run/systemd/private: no such file");
  unit_files := []; active := []; unreadable := [];
  job_outcome := "";
  rc_launch := None;
  rc_list := bytes ("sshd" +:+ newline +:+ "cron" +:+ newline);
  rc_started := ["sshd"]
|}.

End Sim.

Definition marker_path : string := "/run/systemd/system/".

(** The scenario of the specification: a start job that ends "failed". *)
Definition failing_box : Sim.world := {|
  Sim.marker := None; Sim.bus := None;
  Sim.unit_files := []; Sim.active := []; Sim.unreadable := [];
  Sim.job_outcome := "failed";
  Sim.rc_launch := Some ENOENT; Sim.rc_list := []; Sim.rc_started := []
|}.

(** A machine where the probe fails for want of permission. *)
Definition locked_box : Sim.world := {|
  Sim.marker := Some (PathError "stat" marker_path EACCES);
  Sim.bus := Some (DbusError "dial unix /run/systemd/private: no such file");
  Sim.unit_files := []; Sim.active := []; Sim.unreadable := [];
  Sim.job_outcome := "";
  Sim.rc_launch := None; Sim.rc_list := []; Sim.rc_started := []
|}.

(** ** Vocabulary of the statements *)

(** What [StartService] and [StopService] make of the string received on
    the channel. *)
Definition job_error (result : string) : go_error :=
  if negb (String.eqb result ResultDone) then
    match ErrorMap !! result with
    | None => Some ErrorUnknown
    | Some err => err
    end
  else None.

Definition taxonomy : list string :=
  [ResultDone; ResultCanceled; ResultTimeout; ResultFailed; ResultDependency; ResultSkipped].

Inductive Job : Set := JobStart | JobStop.

Definition job_request {W Conn} (h : Host W Conn) (j : Job)
  : Conn -> string -> string -> W -> result string * W :=
  match j with
  | JobStart => conn_StartUnitContext h
  | JobStop => conn_StopUnitContext h
  end.

Definition job_method {W Conn} (h : Host W Conn) (j : Job) : string -> M W go_error :=
  match j with
  | JobStart => SystemCtl_StartService h
  | JobStop => SystemCtl_StopService h
  end.

(** The table of the specification: how an outcome string is to resolve. *)
Definition resolves (outcome : string) (err : go_error) : Prop :=
  (outcome = "done" -> err = None) /\
  (outcome = "canceled" -> err = Some ErrorCanceled) /\
  (outcome = "timeout" -> err = Some ErrorTimeout) /\
  (outcome = "failed" -> err = Some ErrorFailed) /\
  (outcome = "dependency" -> err = Some ErrorDependency) /\
  (outcome = "skipped" -> err = Some ErrorSkipped) /\
  (outcome ∉ ["done"; "canceled"; "timeout"; "failed"; "dependency"; "skipped"]
   -> err = Some ErrorUnknown).

(** The selector as the specification words it: the D-Bus backend exactly
    when the marker is there (the probe returns no error), the command
    backend whenever the marker is missing or the probe fails. *)
Definition selects_by_presence {W Conn} (h : Host W Conn) (w : W) : Prop :=
  let probe := (os_Stat h marker_path w).1 in
  (result_of (NewInitManager h w) = SystemCtl <-> probe = None)
  /\ (probe <> None -> result_of (NewInitManager h w) = OpenRc).

Definition rc_service : string := "/sbin/rc-service".

(** The argument list [RcService] hands to [rc-service] for a per-service
    command. *)
Definition status_args (name : string) : list string :=
  ["--quiet"; (strings_CutSuffix name ".service").1; "status"].

Definition unit_suffix : string := ".service".

Definition stripped (name : string) : string := (strings_CutSuffix name unit_suffix).1.

(** Interchangeability as the specification words it: a name that ends in
    the suffix and the same name with the suffix cut off give the same run.  *)
Definition suffix_interchangeable {W A} (f : string -> M W A) : Prop :=
  forall (name : string) (w : W),
    strings_HasSuffix name unit_suffix = true -> f name w = f (stripped name) w.

(** The lines of the command's output read as text. *)
Definition output_lines (out : list byte) : list string :=
  strings_Split (string_of_bytes out) newline.

Fixpoint free_of (c : ascii) (s : string) : bool :=
  match s with
  | EmptyString => true
  | String d s' => negb (Ascii.eqb c d) && free_of c s'
  end.

Definition is_disable (e : Event) : bool :=
  match e with EvDisableUnitFiles _ _ => true | _ => false end.

Definition is_connect (e : Event) : bool :=
  match e with EvConnect => true | _ => false end.

Definition is_start (e : Event) : bool :=
  match e with EvStartUnit _ _ => true | _ => false end.

Definition count_events (p : Event -> bool) (evs : list Event) : nat :=
  length (List.filter p evs).

(** A pattern for which no filtering is asked. *)
Definition universal (pattern : string) : bool :=
  String.eqb pattern "" || String.eqb pattern "*".

(** The listing request [SystemCtl.ListServices] sends for a pattern. *)
Definition unit_listing {W Conn} (h : Host W Conn) (conn : Conn) (pattern : string)
  : W -> result (list UnitFile) * W :=
  if universal pattern then conn_ListUnitFilesContext h conn
  else conn_ListUnitFilesByPatternsContext h conn [] [pattern].

Definition unit_names {W Conn} (h : Host W Conn) (files : list UnitFile) : list string :=
  map (fun file => filepath_Base h (Path file)) files.

(** [probed h w files services w']: starting in world [w], the units of
    [files] are probed one after the other with [IsServiceRunning], ending
    in [w']; each descriptor carries the unit's base name and is running
    exactly when its own probe returned [true] without error. *)
Inductive probed {W Conn} (h : Host W Conn)
  : W -> list UnitFile -> list InitService -> W -> Prop :=
| probed_nil w : probed h w [] [] w
| probed_cons w file files services w'' running err w' evs :
    SystemCtl_IsServiceRunning h (filepath_Base h (Path file)) w = ((running, err), w', evs) ->
    probed h w' files services w'' ->
    probed h w (file :: files)
      ({| Name := filepath_Base h (Path file);
          Running := match err with None => running | Some _ => false end |} :: services)
      w''.

(** ** Further vocabulary: runs of the remaining methods *)

Definition rc_update : string := "/sbin/rc-update".

Definition is_exec (e : Event) : bool :=
  match e with EvExec _ _ => true | _ => false end.

Definition is_stat (e : Event) : bool :=
  match e with EvStat _ => true | _ => false end.

(** A request to the systemd connection: anything but a command or a stat. *)
Definition is_bus (e : Event) : bool := negb (is_exec e) && negb (is_stat e).

(** A run of one of the two OpenRC executables. *)
Definition is_rc_tool (e : Event) : bool :=
  match e with
  | EvExec path _ => String.eqb path rc_service || String.eqb path rc_update
  | _ => false
  end.

Definition is_status_probe (e : Event) : bool :=
  match e with
  | EvExec path [_; _; verb] => String.eqb path rc_service && String.eqb verb "status"
  | _ => false
  end.


(** A run that opened the connection [conn]: its first request is the
    connection attempt, its last one the close of [conn]. *)
Definition released {W Conn A} (h : Host W Conn) (conn : Conn) (r : A * W * list Event)
  : Prop :=
  exists mid w', events_of r = EvConnect :: mid ++ [EvClose]
                 /\ world_of r = conn_Close h conn w'.

(** How the end of a command shows as an error where a non-zero exit
    counts as failure. *)
Definition exit_status_rule (path : string) (o : ProcOutcome) (err : go_error) : Prop :=
  (forall out, o = Exited 0 out -> err = None)
  /\ (forall code out, o = Exited code out -> code <> 0%Z -> err = Some (ExitError code))
  /\ (forall errno, o = StartFailed errno -> err = Some (PathError "fork/exec" path errno)).

(** [rc_probed h w names services w']: starting in world [w], the names are
    probed in order with the status command, every probe could be started,
    and each descriptor is running exactly when its probe exited with
    status zero. *)
Inductive rc_probed {W Conn} (h : Host W Conn)
  : W -> list string -> list InitService -> W -> Prop :=
| rc_probed_nil w : rc_probed h w [] [] w
| rc_probed_cons w name names services w'' code out w' :
    proc_run h rc_service (status_args name) w = (Exited code out, w') ->
    rc_probed h w' names services w'' ->
    rc_probed h w (name :: names)
      ({| Name := name; Running := bool_decide (code = 0%Z) |} :: services) w''.

(** Hosts with one fault each, built on the concrete host: the named
    request is refused by the bus, everything else answers as before. *)
Inductive Fault : Set :=
| FaultEnable | FaultDisable | FaultProperty | FaultProperties | FaultJob
| FaultReload | FaultListing.

Definition refused : error := DbusError "refused".

Definition faulty (f : Fault) : Host Sim.world unit := {|
  filepath_Match := filepath_Match Sim.host;
  filepath_Base := filepath_Base Sim.host;
  os_Stat := os_Stat Sim.host;
  proc_run := proc_run Sim.host;
  dbus_NewSystemdConnectionContext := dbus_NewSystemdConnectionContext Sim.host;
  conn_Close := conn_Close Sim.host;
  conn_ListUnitFilesContext :=
    fun c w => match f with
               | FaultListing => (Err refused, w)
               | _ => conn_ListUnitFilesContext Sim.host c w
               end;
  conn_ListUnitFilesByPatternsContext :=
    fun c states patterns w =>
      match f with
      | FaultListing => (Err refused, w)
      | _ => conn_ListUnitFilesByPatternsContext Sim.host c states patterns w
      end;
  conn_GetUnitPropertyContext :=
    fun c unit prop w =>
      match f with
      | FaultProperty => (Err refused, w)
      | _ => conn_GetUnitPropertyContext Sim.host c unit prop w
      end;
  conn_GetUnitPropertiesContext :=
    fun c unit w =>
      match f with
      | FaultProperties => (Err refused, w)
      | _ => conn_GetUnitPropertiesContext Sim.host c unit w
      end;
  conn_EnableUnitFilesContext :=
    fun c files runtime force w =>
      match f with
      | FaultEnable => (Some refused, w)
      | _ => conn_EnableUnitFilesContext Sim.host c files runtime force w
      end;
  conn_DisableUnitFilesContext :=
    fun c files runtime w =>
      match f with
      | FaultDisable => (Some refused, w)
      | _ => conn_DisableUnitFilesContext Sim.host c files runtime w
      end;
  conn_StartUnitContext :=
    fun c name mode w =>
      match f with
      | FaultJob => (Err refused, w)
      | _ => conn_StartUnitContext Sim.host c name mode w
      end;
  conn_StopUnitContext :=
    fun c name mode w =>
      match f with
      | FaultJob => (Err refused, w)
      | _ => conn_StopUnitContext Sim.host c name mode w
      end;
  conn_ReloadContext :=
    fun c w => match f with
               | FaultReload => (Some refused, w)
               | _ => conn_ReloadContext Sim.host c w
               end
|}.

(** An OpenRC machine whose executables cannot be started. *)
Definition broken_rc_box : Sim.world := {|
  Sim.marker := Some (PathError "stat" marker_path ENOENT);
  Sim.bus := Some (DbusError "dial unix /run/systemd/private: no such file");
  Sim.unit_files := []; Sim.active := []; Sim.unreadable := [];
  Sim.job_outcome := "";
  Sim.rc_launch := Some ENOENT; Sim.rc_list := []; Sim.rc_started := []
|}.

(** [emits P m]: whatever the world, every request that [m] sends
    satisfies [P]. *)
Definition emits {W A} (P : Event -> bool) (m : M W A) : Prop :=
  forall w : W, forallb P (events_of (m w)) = true.


(** * Properties *)

Ltac go_unfold :=
  unfold defer, bind, request, ret, result_of, world_of, events_of in *.

(** ** Facts about the string functions *)

Lemma str_from_app (p s : string) : str_from (String.length p) (p +:+ s) = s.
Proof. induction p as [| c p IH]; simpl; [destruct s; reflexivity | exact IH]. Qed.

Lemma str_upto_app (p s : string) : str_upto (String.length p) (p +:+ s) = p.
Proof.
  induction p as [| c p IH]; simpl; [destruct s; reflexivity | rewrite IH; reflexivity].
Qed.

Lemma str_upto_from (n : nat) (s : string) : str_upto n s +:+ str_from n s = s.
Proof.
  revert s. induction n as [| n IH]; intros s; simpl; [reflexivity |].
  destruct s as [| c s]; simpl; [reflexivity |].
  change (String c (str_upto n s +:+ str_from n s) = String c s).
  rewrite IH. reflexivity.
Qed.

Lemma str_length_app (p s : string) :
  String.length (p +:+ s) = (String.length p + String.length s).
Proof. induction p as [| c p IH]; simpl; [reflexivity | rewrite IH; reflexivity]. Qed.

(** [HasSuffix] holds exactly of the strings that end in the suffix. *)
Lemma strings_HasSuffix_iff (s suffix : string) :
  strings_HasSuffix s suffix = true <-> exists p, s = p +:+ suffix.
Proof.
  unfold strings_HasSuffix. split.
  - intros H. apply andb_prop in H as [_ H]. apply String.eqb_eq in H.
    exists (str_upto (String.length s - String.length suffix) s).
    pose proof (str_upto_from (String.length s - String.length suffix) s) as E.
    rewrite H in E. symmetry. exact E.
  - intros [p ->]. rewrite str_length_app. apply andb_true_intro. split.
    + apply Nat.leb_le. lia.
    + replace (String.length p + String.length suffix - String.length suffix)
        with (String.length p) by lia.
      rewrite str_from_app. apply String.eqb_refl.
Qed.

Lemma strings_CutSuffix_app (p suffix : string) :
  strings_CutSuffix (p +:+ suffix) suffix = (p, true).
Proof.
  unfold strings_CutSuffix.
  rewrite (proj2 (strings_HasSuffix_iff _ _)) by eauto. simpl.
  rewrite str_length_app.
  replace (String.length p + String.length suffix - String.length suffix)
    with (String.length p) by lia.
  rewrite str_upto_app. reflexivity.
Qed.

(** ** Job outcomes (systemctl.go) *)

Lemma ErrorMap_outside (result : string) :
  result ∉ taxonomy -> ErrorMap !! result = None.
Proof.
  unfold taxonomy, ErrorMap. intros Hout.
  repeat (rewrite lookup_insert_ne; [| intros <-; apply Hout; set_solver]).
  apply lookup_empty.
Qed.

Lemma job_error_outside (result : string) :
  result ∉ taxonomy -> job_error result = Some ErrorUnknown.
Proof.
  intros Hout. unfold job_error.
  rewrite (ErrorMap_outside _ Hout).
  destruct (String.eqb result ResultDone) eqn:E; [| reflexivity].
  apply String.eqb_eq in E. subst. exfalso. apply Hout. set_solver.
Qed.

Section SystemCtl_runs.
Context {W Conn : Type} (h : Host W Conn).

Lemma StartService_run name w conn w1 outcome w2 :
  dbus_NewSystemdConnectionContext h w = (Ok conn, w1) ->
  conn_StartUnitContext h conn name "replace" w1 = (Ok outcome, w2) ->
  SystemCtl_StartService h name w
  = (job_error outcome, conn_Close h conn w2, [EvConnect; EvStartUnit name "replace"; EvClose]).
Proof.
  intros Hc Hs. unfold SystemCtl_StartService, NewSystemdConnectionContext,
    StartUnitContext, Close, job_error. go_unfold.
  rewrite Hc, Hs.
  destruct (negb (String.eqb outcome ResultDone)); [| reflexivity].
  destruct (ErrorMap !! outcome); reflexivity.
Qed.

Lemma StopService_run name w conn w1 outcome w2 :
  dbus_NewSystemdConnectionContext h w = (Ok conn, w1) ->
  conn_StopUnitContext h conn name "replace" w1 = (Ok outcome, w2) ->
  SystemCtl_StopService h name w
  = (job_error outcome, conn_Close h conn w2, [EvConnect; EvStopUnit name "replace"; EvClose]).
Proof.
  intros Hc Hs. unfold SystemCtl_StopService, NewSystemdConnectionContext,
    StopUnitContext, Close, job_error. go_unfold.
  rewrite Hc, Hs.
  destruct (negb (String.eqb outcome ResultDone)); [| reflexivity].
  destruct (ErrorMap !! outcome); reflexivity.
Qed.

End SystemCtl_runs.

Example job_error_done : job_error "done" = None.
Proof. vm_compute. reflexivity. Qed.
Example job_error_failed : job_error "failed" = Some ErrorFailed.
Proof. vm_compute. reflexivity. Qed.
Example job_error_other : job_error "invalid" = Some ErrorUnknown.
Proof. vm_compute. reflexivity. Qed.

(** ** C1: job outcomes *)

Lemma job_error_resolves (outcome : string) : resolves outcome (job_error outcome).
Proof.
  unfold resolves.
  repeat split; try (intros ->; vm_compute; reflexivity).
  apply job_error_outside.
Qed.

Lemma job_method_run {W Conn} (h : Host W Conn) (j : Job) name w conn w1 outcome w2 :
  dbus_NewSystemdConnectionContext h w = (Ok conn, w1) ->
  job_request h j conn name "replace" w1 = (Ok outcome, w2) ->
  result_of (job_method h j name w) = job_error outcome.
Proof.
  intros Hc Hj. destruct j; simpl in *.
  - rewrite (StartService_run h _ _ _ _ _ _ Hc Hj). reflexivity.
  - rewrite (StopService_run h _ _ _ _ _ _ Hc Hj). reflexivity.
Qed.

(** C1.  For [StartService] and [StopService] of the D-Bus backend alike:
    once the connection is open and the job accepted, the string received on
    the completion channel decides the result.  "done" gives nil; "canceled",
    "timeout", "failed", "dependency" and "skipped" give [ErrorCanceled],
    [ErrorTimeout], [ErrorFailed], [ErrorDependency] and [ErrorSkipped]; any
    other string gives [ErrorUnknown].  These seven results are pairwise
    different, so an unknown outcome is neither success nor a taxonomy
    error, and no two taxonomy outcomes share an error. *)
Theorem job_outcome_resolution {W Conn} (h : Host W Conn) (j : Job)
    (name : string) (w : W) (conn : Conn) (w1 : W) (outcome : string) (w2 : W) :
  dbus_NewSystemdConnectionContext h w = (Ok conn, w1) ->
  job_request h j conn name "replace" w1 = (Ok outcome, w2) ->
  resolves outcome (result_of (job_method h j name w))
  /\ NoDup [None; Some ErrorCanceled; Some ErrorTimeout; Some ErrorFailed;
            Some ErrorDependency; Some ErrorSkipped; Some ErrorUnknown].
Proof.
  intros Hc Hj. split.
  - rewrite (job_method_run h j _ _ _ _ _ _ Hc Hj). apply job_error_resolves.
  - apply (bool_decide_unpack _). vm_compute. exact I.
Qed.

Lemma job_outcome_resolution_witness :
  result_of (SystemCtl_StartService Sim.host "web" failing_box) = Some ErrorFailed.
Proof.
  destruct (job_outcome_resolution Sim.host JobStart "web" failing_box tt failing_box
              "failed" failing_box eq_refl eq_refl) as [Hres _].
  destruct Hres as (_ & _ & _ & Hfailed & _).
  exact (Hfailed eq_refl).
Defined.

(** ** C3: the selector *)

Example NewInitManager_locked :
  NewInitManager Sim.host locked_box = (SystemCtl, locked_box, [EvStat marker_path]).
Proof. reflexivity. Qed.

Lemma selector_probe_failure_counterexample : ~ selects_by_presence Sim.host locked_box.
Proof.
  unfold selects_by_presence. intros [_ Hfail].
  assert (Hne : (os_Stat Sim.host marker_path locked_box).1 <> None) by (simpl; discriminate).
  specialize (Hfail Hne). rewrite NewInitManager_locked in Hfail. discriminate Hfail.
Qed.

(** C3, amended.  The selector never fails: it makes one probe of the marker
    path and returns a backend.  It returns the command backend exactly when
    the probe reports that the path does not exist, and the D-Bus backend in
    every other case: the marker present, or the probe failing with any
    other error. *)
Theorem NewInitManager_selects {W Conn} (h : Host W Conn) (w : W) :
  let probe := (os_Stat h marker_path w).1 in
  events_of (NewInitManager h w) = [EvStat marker_path]
  /\ (result_of (NewInitManager h w) = OpenRc
      <-> exists op path, probe = Some (PathError op path ENOENT))
  /\ (result_of (NewInitManager h w) = SystemCtl
      <-> probe = None
          \/ exists e, probe = Some e /\ forall op path, e <> PathError op path ENOENT).
Proof.
  unfold NewInitManager, marker_path. go_unfold. simpl.
  destruct (os_Stat h "/run/systemd/system/" w) as [probe w'] eqn:Hs. simpl.
  split; [destruct (os_IsNotExist probe); reflexivity |].
  destruct probe as [e |]; simpl.
  - destruct e; simpl;
      try (split; split;
           [ intros H; discriminate H
           | intros (op' & path' & H); discriminate H
           | intros _; right; eexists; split; [reflexivity | intros; discriminate]
           | reflexivity ]).
    destruct errno; simpl;
      try (split; split;
           [ intros H; discriminate H
           | intros (op' & path' & H); discriminate H
           | intros _; right; eexists; split; [reflexivity | intros; discriminate]
           | reflexivity ]).
    split; split.
    + intros _. eauto.
    + reflexivity.
    + intros H; discriminate H.
    + intros [H | (e & He & Hne)]; [discriminate H |].
      injection He as <-. exfalso. exact (Hne op path eq_refl).
  - split; split.
    + intros H; discriminate H.
    + intros (op' & path' & H); discriminate H.
    + intros _. left. reflexivity.
    + reflexivity.
Qed.

(** ** C8: the status probe of the command backend *)

Section OpenRc_runs.
Context {W Conn : Type} (h : Host W Conn).

Lemma RcServiceStatus_run name w :
  RcServiceStatus h name w
  = (match (proc_run h rc_service (status_args name) w).1 with
     | Exited code _ => (bool_decide (code = 0%Z), None)
     | StartFailed errno => (false, Some (PathError "fork/exec" rc_service errno))
     end,
     (proc_run h rc_service (status_args name) w).2,
     [EvExec rc_service (status_args name)]).
Proof.
  unfold RcServiceStatus, RcService, exec_Cmd_Output, status_args, rc_service. go_unfold.
  simpl.
  destruct (proc_run h _ _ w) as [[code out | errno] w']; simpl; [| reflexivity].
  destruct (Z.eqb_spec code 0%Z) as [-> | Hne]; simpl.
  - reflexivity.
  - rewrite bool_decide_eq_false_2 by assumption. reflexivity.
Qed.

End OpenRc_runs.

(** C8.  [IsServiceRunning] of the command backend runs
    [rc-service --quiet <name> status] once.  If the command exits with
    status zero the answer is [(true, nil)]; if it runs and exits with any
    other status the answer is [(false, nil)]; if it cannot be started the
    answer is [false] together with the launch error. *)
Theorem OpenRc_IsServiceRunning_status {W Conn} (h : Host W Conn)
    (name : string) (w : W) (o : ProcOutcome) (w' : W) :
  proc_run h rc_service (status_args name) w = (o, w') ->
  events_of (OpenRc_IsServiceRunning h name w) = [EvExec rc_service (status_args name)]
  /\ (forall out, o = Exited 0 out ->
        result_of (OpenRc_IsServiceRunning h name w) = (true, None))
  /\ (forall code out, o = Exited code out -> code <> 0%Z ->
        result_of (OpenRc_IsServiceRunning h name w) = (false, None))
  /\ (forall errno, o = StartFailed errno ->
        result_of (OpenRc_IsServiceRunning h name w)
        = (false, Some (PathError "fork/exec" rc_service errno))).
Proof.
  intros Hrun. unfold OpenRc_IsServiceRunning. rewrite RcServiceStatus_run, Hrun.
  unfold events_of, result_of. simpl.
  split; [reflexivity |]. repeat split.
  - intros out ->. reflexivity.
  - intros code out -> Hne. rewrite bool_decide_eq_false_2 by assumption. reflexivity.
  - intros errno ->. reflexivity.
Qed.

(** The scenario of the specification: [cron] is not started, the status
    command exits with status 3. *)
Lemma OpenRc_IsServiceRunning_status_witness :
  result_of (OpenRc_IsServiceRunning Sim.host "cron" Sim.openrc_box) = (false, None).
Proof.
  destruct (OpenRc_IsServiceRunning_status Sim.host "cron" Sim.openrc_box
              (Exited 3 []) Sim.openrc_box eq_refl) as (_ & _ & Hnonzero & _).
  apply (Hnonzero 3%Z []); [reflexivity | lia].
Defined.

(** ** C9, C10: names with the unit suffix *)

Lemma stripped_fixed (name : string) :
  strings_HasSuffix name unit_suffix = false -> stripped name = name.
Proof. unfold stripped, strings_CutSuffix. intros ->. reflexivity. Qed.

Lemma RcService_stripped {W Conn} (h : Host W Conn) (name : string) (command : serviceCmd) :
  strings_HasSuffix (stripped name) unit_suffix = false ->
  RcService h name command = RcService h (stripped name) command.
Proof.
  intros Hno. unfold RcService. fold unit_suffix. fold (stripped name).
  fold (stripped (stripped name)). rewrite (stripped_fixed _ Hno). reflexivity.
Qed.

Example stripped_once : stripped "web.service.service" = "web.service".
Proof. reflexivity. Qed.

Example StartService_doubled :
  events_of (OpenRc_StartService Sim.host "web.service.service" Sim.openrc_box)
  = [EvExec rc_service ["--quiet"; "web.service"; "start"]].
Proof. reflexivity. Qed.

Example StartService_single :
  events_of (OpenRc_StartService Sim.host "web.service" Sim.openrc_box)
  = [EvExec rc_service ["--quiet"; "web"; "start"]].
Proof. reflexivity. Qed.

Lemma start_stop_suffix_counterexample :
  ~ (suffix_interchangeable (OpenRc_StartService Sim.host)
     /\ suffix_interchangeable (OpenRc_StopService Sim.host)).
Proof.
  intros [Hstart _].
  specialize (Hstart "web.service.service" Sim.openrc_box eq_refl).
  apply (f_equal events_of) in Hstart.
  rewrite stripped_once, StartService_doubled, StartService_single in Hstart.
  discriminate Hstart.
Qed.

Lemma RcServiceStart_events {W Conn} (h : Host W Conn) (name : string) (w : W) :
  events_of (OpenRc_StartService h name w)
  = [EvExec rc_service ["--quiet"; stripped name; "start"]].
Proof.
  unfold OpenRc_StartService, RcServiceStart, RcService, exec_Cmd_Output, stripped,
    unit_suffix, rc_service.
  go_unfold. simpl.
  destruct (proc_run h _ _ w) as [[code out | errno] w']; simpl; [| reflexivity].
  destruct (code =? 0)%Z; reflexivity.
Qed.

Lemma RcServiceStop_events {W Conn} (h : Host W Conn) (name : string) (w : W) :
  events_of (OpenRc_StopService h name w)
  = [EvExec rc_service ["--quiet"; stripped name; "stop"]].
Proof.
  unfold OpenRc_StopService, RcServiceStop, RcService, exec_Cmd_Output, stripped,
    unit_suffix, rc_service.
  go_unfold. simpl.
  destruct (proc_run h _ _ w) as [[code out | errno] w']; simpl; [| reflexivity].
  destruct (code =? 0)%Z; reflexivity.
Qed.

(** C9, amended.  For every service name that ends in ".service" and whose
    remainder does not itself end in ".service", [StartService] and
    [StopService] of the command backend run the same command with the same
    arguments and give the same result for the name as for the name with the
    suffix cut off. *)
Theorem OpenRc_start_stop_suffix {W Conn} (h : Host W Conn) (name : string) (w : W) :
  strings_HasSuffix name unit_suffix = true ->
  strings_HasSuffix (stripped name) unit_suffix = false ->
  OpenRc_StartService h name w = OpenRc_StartService h (stripped name) w
  /\ OpenRc_StopService h name w = OpenRc_StopService h (stripped name) w
  /\ events_of (OpenRc_StartService h name w)
     = [EvExec rc_service ["--quiet"; stripped name; "start"]]
  /\ events_of (OpenRc_StopService h name w)
     = [EvExec rc_service ["--quiet"; stripped name; "stop"]].
Proof.
  intros _ Hno. split; [| split; [| split]].
  - unfold OpenRc_StartService, RcServiceStart.
    rewrite (RcService_stripped h name _ Hno). reflexivity.
  - unfold OpenRc_StopService, RcServiceStop.
    rewrite (RcService_stripped h name _ Hno). reflexivity.
  - apply RcServiceStart_events.
  - apply RcServiceStop_events.
Qed.

Lemma OpenRc_start_stop_suffix_witness :
  OpenRc_StartService Sim.host "cron.service" Sim.openrc_box
  = OpenRc_StartService Sim.host "cron" Sim.openrc_box
  /\ OpenRc_StopService Sim.host "cron.service" Sim.openrc_box
     = OpenRc_StopService Sim.host "cron" Sim.openrc_box.
Proof.
  destruct (OpenRc_start_stop_suffix Sim.host "cron.service" Sim.openrc_box eq_refl eq_refl)
    as (Hstart & Hstop & _).
  exact (conj Hstart Hstop).
Defined.

Example IsServiceRunning_doubled :
  result_of (OpenRc_IsServiceRunning Sim.host "sshd.service.service" Sim.openrc_box)
  = (false, None).
Proof. reflexivity. Qed.

Example IsServiceRunning_single :
  result_of (OpenRc_IsServiceRunning Sim.host "sshd.service" Sim.openrc_box) = (true, None).
Proof. reflexivity. Qed.

Lemma status_suffix_counterexample :
  ~ suffix_interchangeable (OpenRc_IsServiceRunning Sim.host).
Proof.
  intros Hstatus.
  specialize (Hstatus "sshd.service.service" Sim.openrc_box eq_refl).
  apply (f_equal result_of) in Hstatus.
  change (stripped "sshd.service.service") with "sshd.service" in Hstatus.
  rewrite IsServiceRunning_doubled, IsServiceRunning_single in Hstatus.
  discriminate Hstatus.
Qed.

(** C10, amended.  The suffix is cut for the status probe as well: for every
    service name that ends in ".service" and whose remainder does not itself
    end in ".service", [IsServiceRunning] of the command backend runs the
    same command and gives the same answer for the name as for the name with
    the suffix cut off. *)
Theorem OpenRc_status_suffix {W Conn} (h : Host W Conn) (name : string) (w : W) :
  strings_HasSuffix name unit_suffix = true ->
  strings_HasSuffix (stripped name) unit_suffix = false ->
  OpenRc_IsServiceRunning h name w = OpenRc_IsServiceRunning h (stripped name) w.
Proof.
  intros _ Hno. unfold OpenRc_IsServiceRunning, RcServiceStatus.
  rewrite (RcService_stripped h name _ Hno). reflexivity.
Qed.

Lemma OpenRc_status_suffix_witness :
  OpenRc_IsServiceRunning Sim.host "sshd.service" Sim.openrc_box
  = OpenRc_IsServiceRunning Sim.host "sshd" Sim.openrc_box.
Proof.
  exact (OpenRc_status_suffix Sim.host "sshd.service" Sim.openrc_box eq_refl eq_refl).
Defined.

(** ** C2: the names [RcServiceList] returns *)

Lemma free_of_app (c : ascii) (a b : string) :
  free_of c (a +:+ b) = free_of c a && free_of c b.
Proof.
  induction a as [| d a IH]; simpl; [reflexivity |].
  rewrite IH. apply andb_assoc.
Qed.

Lemma NilEmpty_free_of_newline (d : uint) :
  free_of (ascii_of_nat 10) (NilEmpty.string_of_uint d) = true.
Proof. induction d; simpl; auto. Qed.

Lemma fmt_decimal_free_of_newline (n : N) : free_of (ascii_of_nat 10) (fmt_decimal n) = true.
Proof.
  unfold fmt_decimal, NilZero.string_of_uint.
  destruct (N.to_uint n) eqn:E; try reflexivity;
    rewrite <- E; apply NilEmpty_free_of_newline.
Qed.

Lemma fmtBytes_loop_free_of_newline (v : list byte) (i : nat) :
  free_of (ascii_of_nat 10) (fmtBytes_loop i v) = true.
Proof.
  revert i. induction v as [| c v IH]; intros i; simpl; [reflexivity |].
  rewrite !free_of_app, fmt_decimal_free_of_newline, IH.
  destruct (0 <? i); reflexivity.
Qed.

Lemma fmt_Sprint_free_of_newline (v : list byte) :
  free_of (ascii_of_nat 10) (fmt_Sprint v) = true.
Proof.
  unfold fmt_Sprint. rewrite !free_of_app, fmtBytes_loop_free_of_newline. reflexivity.
Qed.

Lemma strings_Index_free_of (c : ascii) (s : string) :
  free_of c s = true -> strings_Index s (String c EmptyString) = None.
Proof.
  induction s as [| d s IH]; simpl; [reflexivity |].
  intros H. apply andb_prop in H as [Hne Hs].
  destruct (ascii_dec c d) as [-> | _].
  - rewrite Ascii.eqb_refl in Hne. discriminate Hne.
  - rewrite (IH Hs). reflexivity.
Qed.

Lemma strings_Split_free_of_newline (s : string) :
  free_of (ascii_of_nat 10) s = true -> strings_Split s newline = [s].
Proof.
  intros H. unfold strings_Split, newline.
  destruct (String.length s); simpl; [reflexivity |].
  fold (strings_Index s (String (ascii_of_nat 10) EmptyString)).
  rewrite (strings_Index_free_of _ _ H). reflexivity.
Qed.

(** Whatever [genSplit] returns as its only element is the whole string. *)
Lemma genSplit_loop_single (fuel : nat) (s sep x : string) :
  genSplit_loop fuel s sep = [x] -> x = s.
Proof.
  destruct fuel as [| fuel]; simpl.
  - intros [= <-]. reflexivity.
  - destruct (strings_Index s sep).
    + destruct fuel; simpl; [discriminate |].
      destruct (strings_Index _ sep); discriminate.
    + intros [= <-]. reflexivity.
Qed.

Lemma string_of_bytes_length (v : list byte) :
  String.length (string_of_bytes v) = length v.
Proof.
  unfold string_of_bytes, String.string_of_list_byte.
  induction v as [| c v IH]; simpl; [reflexivity | rewrite IH; reflexivity].
Qed.

Lemma NilEmpty_length (d : uint) :
  d <> Nil -> (1 <= String.length (NilEmpty.string_of_uint d)).
Proof. destruct d; simpl; intros H; try lia. contradiction. Qed.

Lemma fmt_decimal_length (n : N) : (1 <= String.length (fmt_decimal n)).
Proof.
  unfold fmt_decimal, NilZero.string_of_uint.
  destruct (N.to_uint n) eqn:E; simpl; lia.
Qed.

Lemma fmtBytes_loop_length (v : list byte) (i : nat) :
  (length v <= String.length (fmtBytes_loop i v)).
Proof.
  revert i. induction v as [| c v IH]; intros i; simpl; [lia |].
  rewrite !str_length_app. specialize (IH (S i)).
  pose proof (fmt_decimal_length (Byte.to_N c)). lia.
Qed.

Lemma fmt_Sprint_length (v : list byte) :
  (length v + 2 <= String.length (fmt_Sprint v)).
Proof.
  unfold fmt_Sprint. rewrite !str_length_app.
  pose proof (fmtBytes_loop_length v 0). simpl. lia.
Qed.

Lemma fmt_Sprint_not_lines (out : list byte) : [fmt_Sprint out] <> output_lines out.
Proof.
  unfold output_lines. intros H. symmetry in H.
  assert (E : fmt_Sprint out = string_of_bytes out).
  { unfold strings_Split, newline in H. exact (genSplit_loop_single _ _ _ _ H). }
  pose proof (fmt_Sprint_length out) as Hlen.
  rewrite E, string_of_bytes_length in Hlen. lia.
Qed.

Example output_lines_openrc_box :
  output_lines (Sim.rc_list Sim.openrc_box) = ["sshd"; "cron"; ""].
Proof. reflexivity. Qed.

Lemma RcService_list_run {W Conn} (h : Host W Conn) (w : W) (out : list byte) (w' : W) :
  proc_run h rc_service ["--list"] w = (Exited 0 out, w') ->
  RcService h "" cmdList w = ((out, None), w', [EvExec rc_service ["--list"]]).
Proof.
  intros Hrun. unfold RcService, exec_Cmd_Output, rc_service in *. go_unfold. simpl.
  rewrite Hrun. reflexivity.
Qed.

(** C2.  When the list command succeeds, [RcServiceList] passes its output
    through [fmt.Sprint], which prints a byte slice as a bracketed list of
    decimal numbers.  That text holds no newline, so for every output the
    split yields a single name, the whole rendering, and this name list is
    never the list of lines of the output read as text. *)
Theorem RcServiceList_single_name {W Conn} (h : Host W Conn)
    (w : W) (out : list byte) (w' : W) :
  proc_run h rc_service ["--list"] w = (Exited 0 out, w') ->
  result_of (RcServiceList h w) = ([fmt_Sprint out], None)
  /\ [fmt_Sprint out] <> output_lines out.
Proof.
  intros Hrun. split; [| apply fmt_Sprint_not_lines].
  unfold RcServiceList, bind. rewrite (RcService_list_run h _ _ _ Hrun).
  unfold ret, result_of. cbn [fst snd].
  rewrite (strings_Split_free_of_newline _ (fmt_Sprint_free_of_newline out)). reflexivity.
Qed.

(** On a machine whose list command prints the two lines [sshd] and [cron]
    the only name returned is the rendering of the ten bytes. *)
Lemma RcServiceList_single_name_witness :
  result_of (RcServiceList Sim.host Sim.openrc_box)
  = (["[115 115 104 100 10 99 114 111 110 10]"], None).
Proof.
  exact (proj1 (RcServiceList_single_name Sim.host Sim.openrc_box
                  (Sim.rc_list Sim.openrc_box) Sim.openrc_box eq_refl)).
Defined.

(** ** C4, C5: enable and disable on the D-Bus backend *)

Lemma iface_eq_string_true (v : option GoValue) (s : string) :
  iface_eq_string v s = true <-> v = Some (VString s).
Proof.
  unfold iface_eq_string. destruct v as [[s' | b | n] |]; split; intros H;
    try discriminate H.
  - apply String.eqb_eq in H. subst. reflexivity.
  - injection H as ->. apply String.eqb_refl.
Qed.

Lemma iface_eq_string_false (v : option GoValue) (s : string) :
  iface_eq_string v s = false <-> v <> Some (VString s).
Proof.
  rewrite <- iface_eq_string_true. destruct (iface_eq_string v s); split; intros H;
    try reflexivity; try discriminate; try congruence.
Qed.

Section SystemCtl_events.
Context {W Conn : Type} (h : Host W Conn).

(** A start either stops at the failed connection or makes exactly the
    three requests connect, start-unit, close. *)
Lemma StartService_events name w :
  events_of (SystemCtl_StartService h name w) = [EvConnect]
  \/ events_of (SystemCtl_StartService h name w)
     = [EvConnect; EvStartUnit name "replace"; EvClose].
Proof.
  unfold SystemCtl_StartService, NewSystemdConnectionContext, StartUnitContext, Close.
  go_unfold.
  destruct (dbus_NewSystemdConnectionContext h w) as [[conn | e] w1]; simpl;
    [| left; reflexivity].
  destruct (conn_StartUnitContext h conn name "replace" w1) as [[outcome | e] w2]; simpl;
    [| right; reflexivity].
  destruct (negb (String.eqb outcome ResultDone)); [| right; reflexivity].
  destruct (ErrorMap !! outcome); right; reflexivity.
Qed.

Lemma StopService_events name w :
  events_of (SystemCtl_StopService h name w) = [EvConnect]
  \/ events_of (SystemCtl_StopService h name w)
     = [EvConnect; EvStopUnit name "replace"; EvClose].
Proof.
  unfold SystemCtl_StopService, NewSystemdConnectionContext, StopUnitContext, Close.
  go_unfold.
  destruct (dbus_NewSystemdConnectionContext h w) as [[conn | e] w1]; simpl;
    [| left; reflexivity].
  destruct (conn_StopUnitContext h conn name "replace" w1) as [[outcome | e] w2]; simpl;
    [| right; reflexivity].
  destruct (negb (String.eqb outcome ResultDone)); [| right; reflexivity].
  destruct (ErrorMap !! outcome); right; reflexivity.
Qed.

(** [DisableService] once the connection is open and the properties are
    read: the branch on [ActiveState]. *)
Lemma DisableService_run name w conn w1 properties w2 :
  dbus_NewSystemdConnectionContext h w = (Ok conn, w1) ->
  conn_GetUnitPropertiesContext h conn name w1 = (Ok properties, w2) ->
  SystemCtl_DisableService h name w
  = if iface_eq_string (properties !! "ActiveState") "active" then
      let stop := SystemCtl_StopService h name w2 in
      (result_of stop, conn_Close h conn (world_of stop),
       [EvConnect; EvGetUnitProperties name] ++ events_of stop ++ [EvClose])
    else
      let d := conn_DisableUnitFilesContext h conn [name] false w2 in
      (d.1, conn_Close h conn d.2,
       [EvConnect; EvGetUnitProperties name; EvDisableUnitFiles [name] false; EvClose]).
Proof.
  intros Hc Hp.
  unfold SystemCtl_DisableService, NewSystemdConnectionContext, GetUnitPropertiesContext,
    DisableUnitFilesContext, Close.
  go_unfold. rewrite Hc, Hp.
  destruct (iface_eq_string (properties !! "ActiveState") "active").
  - destruct (SystemCtl_StopService h name w2) as [[r w3] evs]. reflexivity.
  - destruct (conn_DisableUnitFilesContext h conn [name] false w2) as [[e |] w3];
      reflexivity.
Qed.

Lemma DisableService_disable_issued name w :
  existsb is_disable (events_of (SystemCtl_DisableService h name w)) = true ->
  exists conn w1 properties w2,
    dbus_NewSystemdConnectionContext h w = (Ok conn, w1)
    /\ conn_GetUnitPropertiesContext h conn name w1 = (Ok properties, w2)
    /\ properties !! "ActiveState" <> Some (VString "active").
Proof.
  destruct (dbus_NewSystemdConnectionContext h w) as [[conn | e] w1] eqn:Hc.
  - destruct (conn_GetUnitPropertiesContext h conn name w1) as [[properties | e] w2] eqn:Hp.
    + rewrite (DisableService_run _ _ _ _ _ _ Hc Hp).
      destruct (iface_eq_string (properties !! "ActiveState") "active") eqn:Ha.
      * unfold events_of at 1. cbn [snd]. simpl.
        destruct (StopService_events name w2) as [-> | ->]; discriminate.
      * intros _. exists conn, w1, properties, w2.
        split; [reflexivity | split; [exact Hp |]].
        apply iface_eq_string_false. exact Ha.
    + unfold SystemCtl_DisableService, NewSystemdConnectionContext,
        GetUnitPropertiesContext, Close. go_unfold. rewrite Hc, Hp. discriminate.
  - unfold SystemCtl_DisableService, NewSystemdConnectionContext. go_unfold.
    rewrite Hc. discriminate.
Qed.

End SystemCtl_events.

(** C4.  When [DisableService] of the D-Bus backend has opened its
    connection and reads [ActiveState] as "active", the call consists of the
    property read, one run of [StopService] and the deferred close; it
    returns what that stop returns and sends no disable-unit-files request.
    In any call at all, a disable-unit-files request is sent only after the
    properties were read and [ActiveState] was found not to be "active". *)
Theorem DisableService_active_stops {W Conn} (h : Host W Conn) (name : string)
    (w : W) (conn : Conn) (w1 : W) (properties : gmap string GoValue) (w2 : W) :
  dbus_NewSystemdConnectionContext h w = (Ok conn, w1) ->
  conn_GetUnitPropertiesContext h conn name w1 = (Ok properties, w2) ->
  properties !! "ActiveState" = Some (VString "active") ->
  let stop := SystemCtl_StopService h name w2 in
  SystemCtl_DisableService h name w
  = (result_of stop, conn_Close h conn (world_of stop),
     [EvConnect; EvGetUnitProperties name] ++ events_of stop ++ [EvClose])
  /\ existsb is_disable (events_of (SystemCtl_DisableService h name w)) = false
  /\ (forall w0 : W,
        existsb is_disable (events_of (SystemCtl_DisableService h name w0)) = true ->
        exists conn0 w3 properties0 w4,
          dbus_NewSystemdConnectionContext h w0 = (Ok conn0, w3)
          /\ conn_GetUnitPropertiesContext h conn0 name w3 = (Ok properties0, w4)
          /\ properties0 !! "ActiveState" <> Some (VString "active")).
Proof.
  intros Hc Hp Ha stop.
  assert (Hrun := DisableService_run h name w conn w1 properties w2 Hc Hp).
  rewrite (proj2 (iface_eq_string_true _ _) Ha) in Hrun. fold stop in Hrun.
  split; [exact Hrun |]. split.
  - rewrite Hrun. unfold events_of at 1. cbn [snd]. simpl.
    destruct (StopService_events h name w2) as [E | E]; fold stop in E; rewrite E;
      reflexivity.
  - intros w0. apply DisableService_disable_issued.
Qed.

Lemma DisableService_active_stops_witness :
  SystemCtl_DisableService Sim.host "ssh.service" Sim.systemd_box
  = (None, Sim.set_active [] Sim.systemd_box,
     [EvConnect; EvGetUnitProperties "ssh.service";
      EvConnect; EvStopUnit "ssh.service" "replace"; EvClose; EvClose]).
Proof.
  exact (proj1 (DisableService_active_stops Sim.host "ssh.service" Sim.systemd_box tt
                  Sim.systemd_box _ Sim.systemd_box eq_refl eq_refl eq_refl)).
Defined.

Section SystemCtl_enable.
Context {W Conn : Type} (h : Host W Conn).

Lemma EnableService_run name w conn w1 w2 property w3 :
  dbus_NewSystemdConnectionContext h w = (Ok conn, w1) ->
  conn_EnableUnitFilesContext h conn [name] false true w1 = (None, w2) ->
  conn_GetUnitPropertyContext h conn name "ActiveState" w2 = (Ok property, w3) ->
  SystemCtl_EnableService h name w
  = if negb (iface_eq_string (Some (PropValue property)) "active") then
      let start := SystemCtl_StartService h name w3 in
      (result_of start, conn_Close h conn (world_of start),
       [EvConnect; EvEnableUnitFiles [name] false true;
        EvGetUnitProperty name "ActiveState"] ++ events_of start ++ [EvClose])
    else
      (None, conn_Close h conn w3,
       [EvConnect; EvEnableUnitFiles [name] false true;
        EvGetUnitProperty name "ActiveState"; EvClose]).
Proof.
  intros Hc He Hp.
  unfold SystemCtl_EnableService, NewSystemdConnectionContext, EnableUnitFilesContext,
    GetUnitPropertyContext, Close.
  go_unfold. rewrite Hc, He, Hp.
  destruct (negb (iface_eq_string (Some (PropValue property)) "active")).
  - destruct (SystemCtl_StartService h name w3) as [[r w4] evs]. reflexivity.
  - reflexivity.
Qed.

End SystemCtl_enable.

(** C5.  When [EnableService] of the D-Bus backend has opened its
    connection, its enable-unit-files request has succeeded and the read of
    [ActiveState] that follows has returned a value:
    if the value is not "active", the rest of the call is one run of
    [StartService] followed by the deferred close, and the call returns what
    that start returns (two connections are opened in all, the call's own
    and the start's, and at most one start-unit request is sent);
    if the value is "active", the call closes its connection and returns
    nil without any further request. *)
Theorem EnableService_starts_once {W Conn} (h : Host W Conn) (name : string)
    (w : W) (conn : Conn) (w1 w2 : W) (property : Property) (w3 : W) :
  dbus_NewSystemdConnectionContext h w = (Ok conn, w1) ->
  conn_EnableUnitFilesContext h conn [name] false true w1 = (None, w2) ->
  conn_GetUnitPropertyContext h conn name "ActiveState" w2 = (Ok property, w3) ->
  let start := SystemCtl_StartService h name w3 in
  let run := SystemCtl_EnableService h name w in
  (PropValue property <> VString "active" ->
     run = (result_of start, conn_Close h conn (world_of start),
            [EvConnect; EvEnableUnitFiles [name] false true;
             EvGetUnitProperty name "ActiveState"] ++ events_of start ++ [EvClose])
     /\ count_events is_connect (events_of run) = 2
     /\ (count_events is_start (events_of run) <= 1))
  /\ (PropValue property = VString "active" ->
     run = (None, conn_Close h conn w3,
            [EvConnect; EvEnableUnitFiles [name] false true;
             EvGetUnitProperty name "ActiveState"; EvClose])).
Proof.
  intros Hc He Hp start run.
  assert (Hrun := EnableService_run h name w conn w1 w2 property w3 Hc He Hp).
  fold run start in Hrun. split.
  - intros Hna.
    assert (Hf : iface_eq_string (Some (PropValue property)) "active" = false).
    { apply iface_eq_string_false. congruence. }
    rewrite Hf in Hrun. simpl in Hrun. fold start in Hrun.
    split; [exact Hrun |]. rewrite Hrun. unfold events_of at 1 3. cbn [snd].
    unfold count_events.
    destruct (StartService_events h name w3) as [E | E]; fold start in E; rewrite E;
      simpl; split; lia.
  - intros Ha.
    assert (Ht : iface_eq_string (Some (PropValue property)) "active" = true).
    { apply iface_eq_string_true. congruence. }
    rewrite Ht in Hrun. exact Hrun.
Qed.

Lemma EnableService_starts_once_witness :
  SystemCtl_EnableService Sim.host "cron.service" Sim.systemd_box
  = (None, Sim.set_active ["cron.service"; "ssh.service"] Sim.systemd_box,
     [EvConnect; EvEnableUnitFiles ["cron.service"] false true;
      EvGetUnitProperty "cron.service" "ActiveState";
      EvConnect; EvStartUnit "cron.service" "replace"; EvClose; EvClose])
  /\ SystemCtl_EnableService Sim.host "ssh.service" Sim.systemd_box
     = (None, Sim.systemd_box,
        [EvConnect; EvEnableUnitFiles ["ssh.service"] false true;
         EvGetUnitProperty "ssh.service" "ActiveState"; EvClose]).
Proof.
  split.
  - refine (proj1 (proj1 (EnableService_starts_once Sim.host "cron.service" Sim.systemd_box
                     tt Sim.systemd_box Sim.systemd_box _ Sim.systemd_box
                     eq_refl eq_refl eq_refl) _)).
    simpl. discriminate.
  - exact (proj2 (EnableService_starts_once Sim.host "ssh.service" Sim.systemd_box
                     tt Sim.systemd_box Sim.systemd_box _ Sim.systemd_box
                     eq_refl eq_refl eq_refl) eq_refl).
Defined.

(** ** C6, C7: listing *)

Section Listing.
Context {W Conn : Type} (h : Host W Conn).

Lemma probed_length w files services w' :
  probed h w files services w' -> length services = length files.
Proof. induction 1; simpl; congruence. Qed.

Lemma probed_names w files services w' :
  probed h w files services w' -> map Name services = unit_names h files.
Proof. induction 1; simpl; congruence. Qed.

Lemma SystemCtl_probe_files_spec files acc w :
  exists services w' evs,
    SystemCtl_probe_files h files acc w = (acc ++ services, w', evs)
    /\ probed h w files services w'.
Proof.
  revert acc w. induction files as [| file files IH]; intros acc w; simpl.
  - exists [], w, []. rewrite app_nil_r. split; [reflexivity | constructor].
  - unfold bind.
    destruct (SystemCtl_IsServiceRunning h (filepath_Base h (Path file)) w)
      as [[[running err] w1] evs1] eqn:Hprobe.
    cbn [fst snd].
    destruct (IH (acc ++ [{| Name := filepath_Base h (Path file);
                             Running := bool_decide (err = None) && running |}]) w1)
      as (services & w' & evs & Hrun & Hp).
    rewrite Hrun.
    eexists (_ :: services), w', _. split.
    + rewrite <- app_assoc. reflexivity.
    + replace (bool_decide (err = None) && running)
        with (match err with None => running | Some _ => false end)
        by (destruct err; reflexivity).
      econstructor; eassumption.
Qed.

(** [ListServices] once the connection is open and the listing request
    has returned its unit files. *)
Lemma SystemCtl_ListServices_run pattern w conn w1 files w2 :
  dbus_NewSystemdConnectionContext h w = (Ok conn, w1) ->
  unit_listing h conn pattern w1 = (Ok files, w2) ->
  exists services w3 evs,
    SystemCtl_ListServices h pattern w = ((services, None), conn_Close h conn w3, evs)
    /\ probed h w2 files services w3.
Proof.
  intros Hc Hl.
  destruct (SystemCtl_probe_files_spec files [] w2) as (services & w3 & evs & Hrun & Hp).
  exists services, w3.
  unfold SystemCtl_ListServices, NewSystemdConnectionContext, ListUnitFilesContext,
    ListUnitFilesByPatternsContext, Close, unit_listing, universal in *.
  go_unfold. rewrite Hc.
  destruct (String.eqb pattern "" || String.eqb pattern "*");
    rewrite Hl, Hrun; eexists; (split; [reflexivity | exact Hp]).
Qed.

Lemma SystemCtl_ListServices_error pattern w e :
  (result_of (SystemCtl_ListServices h pattern w)).2 = Some e ->
  (dbus_NewSystemdConnectionContext h w).1 = Err e
  \/ exists conn w1,
       dbus_NewSystemdConnectionContext h w = (Ok conn, w1)
       /\ (unit_listing h conn pattern w1).1 = Err e.
Proof.
  destruct (dbus_NewSystemdConnectionContext h w) as [[conn | e0] w1] eqn:Hc.
  - destruct (unit_listing h conn pattern w1) as [[files | e1] w2] eqn:Hl.
    + destruct (SystemCtl_ListServices_run pattern w conn w1 files w2 Hc Hl)
        as (services & w3 & evs & Hrun & _).
      rewrite Hrun. discriminate.
    + intros He. right. exists conn, w1. split; [reflexivity |].
      revert He.
      unfold SystemCtl_ListServices, NewSystemdConnectionContext, ListUnitFilesContext,
        ListUnitFilesByPatternsContext, Close, unit_listing, universal in *.
      go_unfold. rewrite Hc.
      destruct (String.eqb pattern "" || String.eqb pattern "*");
        rewrite Hl; simpl; congruence.
  - intros He. left. revert He.
    unfold SystemCtl_ListServices, NewSystemdConnectionContext. go_unfold.
    rewrite Hc. simpl. congruence.
Qed.

End Listing.

(** C7.  Once the connection is open and the listing request has returned
    its unit files, [ListServices] of the D-Bus backend returns, without
    error, one descriptor per unit file, in order, named by the file's base
    name; an entry is running exactly when its own probe returned [true]
    with no error, so a failed probe only makes that entry not running.
    In any call, an error is returned only if it is the error of the
    connection attempt or of the listing request. *)
Theorem SystemCtl_ListServices_probe_tolerant {W Conn} (h : Host W Conn)
    (pattern : string) (w : W) (conn : Conn) (w1 : W) (files : list UnitFile) (w2 : W) :
  dbus_NewSystemdConnectionContext h w = (Ok conn, w1) ->
  unit_listing h conn pattern w1 = (Ok files, w2) ->
  (exists services w3,
     result_of (SystemCtl_ListServices h pattern w) = (services, None)
     /\ world_of (SystemCtl_ListServices h pattern w) = conn_Close h conn w3
     /\ probed h w2 files services w3
     /\ length services = length files
     /\ map Name services = unit_names h files)
  /\ (forall (pattern0 : string) (w0 : W) (e : error),
        (result_of (SystemCtl_ListServices h pattern0 w0)).2 = Some e ->
        (dbus_NewSystemdConnectionContext h w0).1 = Err e
        \/ exists conn0 w3,
             dbus_NewSystemdConnectionContext h w0 = (Ok conn0, w3)
             /\ (unit_listing h conn0 pattern0 w3).1 = Err e).
Proof.
  intros Hc Hl. split.
  - destruct (SystemCtl_ListServices_run h pattern w conn w1 files w2 Hc Hl)
      as (services & w3 & evs & Hrun & Hp).
    exists services, w3. rewrite Hrun.
    repeat split; [exact Hp | exact (probed_length h _ _ _ _ Hp)
                   | exact (probed_names h _ _ _ _ Hp)].
  - intros pattern0 w0 e. apply SystemCtl_ListServices_error.
Qed.

(** On the machine with three unit files, one of which cannot be probed. *)
Lemma SystemCtl_ListServices_probe_tolerant_witness :
  exists services w3,
    result_of (SystemCtl_ListServices Sim.host "" Sim.systemd_box) = (services, None)
    /\ world_of (SystemCtl_ListServices Sim.host "" Sim.systemd_box) = w3
    /\ probed Sim.host Sim.systemd_box (Sim.unit_files Sim.systemd_box) services w3
    /\ length services = 3
    /\ map Name services = ["ssh.service"; "cron.service"; "ghost.service"].
Proof.
  exact (proj1 (SystemCtl_ListServices_probe_tolerant Sim.host "" Sim.systemd_box tt
                  Sim.systemd_box (Sim.unit_files Sim.systemd_box) Sim.systemd_box
                  eq_refl eq_refl)).
Defined.

Example SystemCtl_ListServices_systemd_box :
  result_of (SystemCtl_ListServices Sim.host "" Sim.systemd_box)
  = ([ {| Name := "ssh.service"; Running := true |};
       {| Name := "cron.service"; Running := false |};
       {| Name := "ghost.service"; Running := false |} ], None).
Proof. reflexivity. Qed.

Section Filtering.
Context {W Conn : Type} (h : Host W Conn).

(** The loop keeps, in the first [n] cells, the matching names among the
    first [i] original ones, and leaves the cells from [i] on untouched. *)
Lemma OpenRc_filter_loop_spec pattern orig todo i n svc_list svc_list' n' :
  (n <= i) ->
  (i + todo) = length orig ->
  length svc_list = length orig ->
  take n svc_list = List.filter (fun x => (filepath_Match h pattern x).1) (take i orig) ->
  drop i svc_list = drop i orig ->
  OpenRc_filter_loop h pattern todo i n svc_list = Ok (svc_list', n') ->
  take n' svc_list' = List.filter (fun x => (filepath_Match h pattern x).1) orig.
Proof.
  revert i n svc_list.
  induction todo as [| todo IH]; intros i n svc_list Hni Hlen Hl Htake Hdrop; simpl.
  - intros [= <- <-]. rewrite Htake. rewrite take_ge by lia. reflexivity.
  - assert (Hi : (i < length orig)) by lia.
    destruct (lookup_lt_is_Some_2 orig i Hi) as [x Hx].
    assert (Hsx : svc_list !! i = Some x).
    { rewrite <- (Nat.add_0_r i), <- lookup_drop, Hdrop, lookup_drop, Nat.add_0_r.
      exact Hx. }
    rewrite Hsx.
    destruct (filepath_Match h pattern x) as [matched err] eqn:Hm.
    destruct err as [e |]; [discriminate |].
    assert (Hdrop' : drop (S i) svc_list = drop (S i) orig).
    { rewrite <- (Nat.add_1_r i), <- !drop_drop, Hdrop. reflexivity. }
    destruct matched.
    + apply IH.
      * lia.
      * lia.
      * rewrite length_insert. exact Hl.
      * rewrite (take_S_r _ _ x) by (apply list_lookup_insert_eq; lia).
        rewrite take_insert_ge by lia.
        rewrite (take_S_r _ _ _ Hx), List.filter_app, Htake. simpl.
        rewrite Hm. reflexivity.
      * rewrite drop_insert_lt by lia. exact Hdrop'.
    + apply IH.
      * lia.
      * lia.
      * exact Hl.
      * rewrite (take_S_r _ _ _ Hx), List.filter_app, Htake. simpl.
        rewrite Hm. simpl. rewrite app_nil_r. reflexivity.
      * exact Hdrop'.
Qed.

Lemma OpenRc_probe_names_names svc_list acc w services :
  result_of (OpenRc_probe_names h svc_list acc w) = (services, None) ->
  map Name services = map Name acc ++ svc_list.
Proof.
  revert acc w. induction svc_list as [| svc_name svc_list IH]; intros acc w; simpl.
  - unfold ret, result_of. simpl. intros [= <-]. rewrite app_nil_r. reflexivity.
  - unfold bind, result_of.
    destruct (OpenRc_IsServiceRunning h svc_name w) as [[[running err] w1] evs1].
    cbn [fst snd].
    destruct err as [e |]; [simpl; discriminate |].
    destruct (OpenRc_probe_names h svc_list
                (acc ++ [{| Name := svc_name; Running := running |}]) w1)
      as [[r w2] evs2] eqn:Hrec.
    cbn [fst snd]. intros ->.
    rewrite (IH _ w1) by (unfold result_of; rewrite Hrec; reflexivity).
    rewrite map_app, <- app_assoc. reflexivity.
Qed.

Lemma OpenRc_ListServices_names pattern w known w1 evs services :
  RcServiceList h w = ((known, None), w1, evs) ->
  result_of (OpenRc_ListServices h pattern w) = (services, None) ->
  map Name services
  = if universal pattern then known
    else List.filter (fun x => (filepath_Match h pattern x).1) known.
Proof.
  intros Hlist. unfold OpenRc_ListServices, universal, bind, result_of.
  rewrite Hlist. cbn [fst snd].
  destruct (String.eqb pattern ""), (String.eqb pattern "*"); cbn [negb andb orb];
    try (destruct (OpenRc_probe_names h known [] w1) as [[r w2] evs2] eqn:Hrun;
         cbn [fst snd]; intros ->;
         apply (OpenRc_probe_names_names known [] w1);
         unfold result_of; rewrite Hrun; reflexivity).
  destruct (OpenRc_filter_loop h pattern (length known) 0 0 known)
    as [[svc_list n] | e] eqn:Hloop; [| simpl; discriminate].
  destruct (OpenRc_probe_names h (take n svc_list) [] w1) as [[r w2] evs2] eqn:Hrun.
  cbn [fst snd]. intros ->.
  rewrite (OpenRc_probe_names_names (take n svc_list) [] w1)
    by (unfold result_of; rewrite Hrun; reflexivity).
  simpl.
  apply (OpenRc_filter_loop_spec pattern known (length known) 0 0 known svc_list n);
    try reflexivity; try lia. exact Hloop.
Qed.




End Filtering.





(** ** Beyond the claims: the D-Bus backend *)

Section SystemCtl_shape.
Context {W Conn : Type} (h : Host W Conn).

Lemma connect_fails {A} (k : result Conn -> M W A) w e w1 :
  dbus_NewSystemdConnectionContext h w = (Err e, w1) ->
  bind (NewSystemdConnectionContext h) k w
  = (result_of (k (Err e) w1), world_of (k (Err e) w1), EvConnect :: events_of (k (Err e) w1)).
Proof.
  intros Hc. unfold NewSystemdConnectionContext. go_unfold. rewrite Hc.
  destruct (k (Err e) w1) as [[a w2] evs]. reflexivity.
Qed.

Lemma connect_then {A} (k : result Conn -> M W A) w conn w1 :
  dbus_NewSystemdConnectionContext h w = (Ok conn, w1) ->
  bind (NewSystemdConnectionContext h) k w
  = (result_of (k (Ok conn) w1), world_of (k (Ok conn) w1),
     EvConnect :: events_of (k (Ok conn) w1)).
Proof.
  intros Hc. unfold NewSystemdConnectionContext. go_unfold. rewrite Hc.
  destruct (k (Ok conn) w1) as [[a w2] evs]. reflexivity.
Qed.

Lemma defer_Close_run {A} (body : M W A) conn w :
  defer (Close h conn) body w
  = (result_of (body w), conn_Close h conn (world_of (body w)),
     events_of (body w) ++ [EvClose]).
Proof.
  unfold Close. go_unfold. destruct (body w) as [[a w1] evs]. reflexivity.
Qed.

Lemma released_defer {A} (k : result Conn -> M W A) (body : M W A) w conn w1 :
  dbus_NewSystemdConnectionContext h w = (Ok conn, w1) ->
  k (Ok conn) = defer (Close h conn) body ->
  released h conn (bind (NewSystemdConnectionContext h) k w).
Proof.
  intros Hc Hk. rewrite (connect_then k _ _ _ Hc), Hk, defer_Close_run.
  unfold released, events_of, world_of. cbn [fst snd]. eauto.
Qed.

End SystemCtl_shape.

(** X1.  Every method of the D-Bus backend whose connection attempt fails
    returns the connection error as it is, with [false] or an empty list
    where it has a value to return, and sends no other request. *)
Theorem SystemCtl_connection_failure {W Conn} (h : Host W Conn)
    (name pattern : string) (w : W) (e : error) (w1 : W) :
  dbus_NewSystemdConnectionContext h w = (Err e, w1) ->
  SystemCtl_ListServices h pattern w = (([], Some e), w1, [EvConnect])
  /\ SystemCtl_IsServiceEnabled h name w = ((false, Some e), w1, [EvConnect])
  /\ SystemCtl_IsServiceRunning h name w = ((false, Some e), w1, [EvConnect])
  /\ SystemCtl_EnableService h name w = (Some e, w1, [EvConnect])
  /\ SystemCtl_DisableService h name w = (Some e, w1, [EvConnect])
  /\ SystemCtl_StartService h name w = (Some e, w1, [EvConnect])
  /\ SystemCtl_StopService h name w = (Some e, w1, [EvConnect])
  /\ SystemCtl_Reload h w = (Some e, w1, [EvConnect]).
Proof.
  intros Hc.
  unfold SystemCtl_ListServices, SystemCtl_IsServiceEnabled, SystemCtl_IsServiceRunning,
    SystemCtl_EnableService, SystemCtl_DisableService, SystemCtl_StartService,
    SystemCtl_StopService, SystemCtl_Reload.
  rewrite !(connect_fails h _ _ _ _ Hc). repeat split.
Qed.

Lemma SystemCtl_connection_failure_witness :
  SystemCtl_StartService Sim.host "web" Sim.openrc_box
  = (Some (DbusError "dial unix /run/systemd/private: no such file"),
     Sim.openrc_box, [EvConnect]).
Proof.
  destruct (SystemCtl_connection_failure Sim.host "web" "" Sim.openrc_box _ Sim.openrc_box
              eq_refl) as (_ & _ & _ & _ & _ & Hstart & _).
  exact Hstart.
Defined.

(** X2.  Every method of the D-Bus backend that has opened its connection
    closes it before it returns, on every path: the run starts with the
    connection attempt and ends with the close of that connection. *)
Theorem SystemCtl_connection_released {W Conn} (h : Host W Conn)
    (name pattern : string) (w : W) (conn : Conn) (w1 : W) :
  dbus_NewSystemdConnectionContext h w = (Ok conn, w1) ->
  released h conn (SystemCtl_ListServices h pattern w)
  /\ released h conn (SystemCtl_IsServiceEnabled h name w)
  /\ released h conn (SystemCtl_IsServiceRunning h name w)
  /\ released h conn (SystemCtl_EnableService h name w)
  /\ released h conn (SystemCtl_DisableService h name w)
  /\ released h conn (SystemCtl_StartService h name w)
  /\ released h conn (SystemCtl_StopService h name w)
  /\ released h conn (SystemCtl_Reload h w).
Proof.
  intros Hc.
  repeat split; eapply released_defer; try exact Hc; reflexivity.
Qed.

Lemma SystemCtl_connection_released_witness :
  released Sim.host tt (SystemCtl_EnableService Sim.host "cron.service" Sim.systemd_box).
Proof.
  destruct (SystemCtl_connection_released Sim.host "cron.service" "" Sim.systemd_box tt
              Sim.systemd_box eq_refl) as (_ & _ & _ & Henable & _).
  exact Henable.
Defined.

(** X3.  [IsServiceRunning] of the D-Bus backend, once connected, reads the
    one property [ActiveState] and closes the connection.  It answers
    [(true, nil)] exactly when the property holds the string "active";
    any other value, of whatever type, gives [(false, nil)]; a failed read
    gives [false] with the read's error. *)
Theorem SystemCtl_IsServiceRunning_reads_ActiveState {W Conn} (h : Host W Conn)
    (name : string) (w : W) (conn : Conn) (w1 : W) (r : result Property) (w2 : W) :
  dbus_NewSystemdConnectionContext h w = (Ok conn, w1) ->
  conn_GetUnitPropertyContext h conn name "ActiveState" w1 = (r, w2) ->
  events_of (SystemCtl_IsServiceRunning h name w)
  = [EvConnect; EvGetUnitProperty name "ActiveState"; EvClose]
  /\ world_of (SystemCtl_IsServiceRunning h name w) = conn_Close h conn w2
  /\ (forall e, r = Err e ->
        result_of (SystemCtl_IsServiceRunning h name w) = (false, Some e))
  /\ (forall property, r = Ok property ->
        (PropValue property = VString "active" ->
         result_of (SystemCtl_IsServiceRunning h name w) = (true, None))
        /\ (PropValue property <> VString "active" ->
            result_of (SystemCtl_IsServiceRunning h name w) = (false, None))).
Proof.
  intros Hc Hp. unfold SystemCtl_IsServiceRunning.
  rewrite (connect_then h _ _ _ _ Hc), defer_Close_run.
  unfold GetUnitPropertyContext. go_unfold. rewrite Hp.
  destruct r as [property | e]; cbn [fst snd].
  - split; [reflexivity | split; [reflexivity | split; [intros ? [=] |]]].
    intros p [= <-]. split; intros Hv.
    + rewrite (proj2 (iface_eq_string_true _ _)) by congruence. reflexivity.
    + rewrite (proj2 (iface_eq_string_false _ _)) by congruence. reflexivity.
  - split; [reflexivity | split; [reflexivity | split; [| intros ? [=]]]].
    intros e' [= <-]. reflexivity.
Qed.

Lemma SystemCtl_IsServiceRunning_reads_ActiveState_witness :
  result_of (SystemCtl_IsServiceRunning Sim.host "ssh.service" Sim.systemd_box) = (true, None)
  /\ result_of (SystemCtl_IsServiceRunning (faulty FaultProperty) "ssh.service"
                  Sim.systemd_box) = (false, Some refused).
Proof.
  split.
  - destruct (SystemCtl_IsServiceRunning_reads_ActiveState Sim.host "ssh.service"
                Sim.systemd_box tt Sim.systemd_box _ Sim.systemd_box eq_refl eq_refl)
      as (_ & _ & _ & Hok).
    exact (proj1 (Hok _ eq_refl) eq_refl).
  - destruct (SystemCtl_IsServiceRunning_reads_ActiveState (faulty FaultProperty)
                "ssh.service" Sim.systemd_box tt Sim.systemd_box _ Sim.systemd_box
                eq_refl eq_refl)
      as (_ & _ & Herr & _).
    exact (Herr _ eq_refl).
Defined.

(** X4.  [IsServiceEnabled] of the D-Bus backend, once connected, reads the
    one property [UnitFileState] and closes the connection.  It answers
    [(true, nil)] exactly when the property holds the string "enabled";
    every other state ("static", "masked", "disabled", ...) gives
    [(false, nil)], not an error; a failed read gives [false] with the
    read's error. *)
Theorem SystemCtl_IsServiceEnabled_reads_UnitFileState {W Conn} (h : Host W Conn)
    (name : string) (w : W) (conn : Conn) (w1 : W) (r : result Property) (w2 : W) :
  dbus_NewSystemdConnectionContext h w = (Ok conn, w1) ->
  conn_GetUnitPropertyContext h conn name "UnitFileState" w1 = (r, w2) ->
  events_of (SystemCtl_IsServiceEnabled h name w)
  = [EvConnect; EvGetUnitProperty name "UnitFileState"; EvClose]
  /\ world_of (SystemCtl_IsServiceEnabled h name w) = conn_Close h conn w2
  /\ (forall e, r = Err e ->
        result_of (SystemCtl_IsServiceEnabled h name w) = (false, Some e))
  /\ (forall property, r = Ok property ->
        (PropValue property = VString "enabled" ->
         result_of (SystemCtl_IsServiceEnabled h name w) = (true, None))
        /\ (PropValue property <> VString "enabled" ->
            result_of (SystemCtl_IsServiceEnabled h name w) = (false, None))).
Proof.
  intros Hc Hp. unfold SystemCtl_IsServiceEnabled.
  rewrite (connect_then h _ _ _ _ Hc), defer_Close_run.
  unfold GetUnitPropertyContext. go_unfold. rewrite Hp.
  destruct r as [property | e]; cbn [fst snd].
  - destruct (iface_eq_string (Some (PropValue property)) "enabled") eqn:Hv;
      cbn [fst snd];
      (split; [reflexivity | split; [reflexivity | split; [intros ? [=] |]]]);
      intros p [= <-]; split; intros Hp'; try reflexivity; exfalso.
    + apply iface_eq_string_true in Hv. congruence.
    + apply iface_eq_string_false in Hv. congruence.
  - split; [reflexivity | split; [reflexivity | split; [| intros ? [=]]]].
    intros e' [= <-]. reflexivity.
Qed.

Lemma SystemCtl_IsServiceEnabled_reads_UnitFileState_witness :
  result_of (SystemCtl_IsServiceEnabled Sim.host "ssh.service" Sim.systemd_box)
  = (false, None).
Proof.
  destruct (SystemCtl_IsServiceEnabled_reads_UnitFileState Sim.host "ssh.service"
              Sim.systemd_box tt Sim.systemd_box _ Sim.systemd_box eq_refl eq_refl)
    as (_ & _ & _ & Hok).
  refine (proj2 (Hok _ eq_refl) _). simpl. discriminate.
Defined.

Lemma ErrorMap_nil (result : string) : ErrorMap !! result = Some None -> result = ResultDone.
Proof.
  unfold ErrorMap.
  rewrite lookup_insert. case_decide as H0; [intros _; symmetry; exact H0 |].
  repeat (rewrite lookup_insert; case_decide; [discriminate |]).
  rewrite lookup_empty. discriminate.
Qed.

Lemma job_error_nil (outcome : string) : job_error outcome = None <-> outcome = "done".
Proof.
  split.
  - unfold job_error. destruct (String.eqb_spec outcome ResultDone) as [-> | Hne]; simpl.
    + reflexivity.
    + destruct (ErrorMap !! outcome) as [err |] eqn:E; [| discriminate].
      intros ->. exfalso. apply Hne. exact (ErrorMap_nil _ E).
  - intros ->. reflexivity.
Qed.

(** X5.  [StartService] and [StopService] of the D-Bus backend, once
    connected, send one start-unit (stop-unit) request for the name in
    mode "replace" and close the connection.  If the request is refused the
    refusal is returned as it is.  If the job is accepted, the call returns
    nil if and only if the outcome received is exactly "done". *)
Theorem SystemCtl_job_success_iff_done {W Conn} (h : Host W Conn) (j : Job)
    (name : string) (w : W) (conn : Conn) (w1 : W) (r : result string) (w2 : W) :
  dbus_NewSystemdConnectionContext h w = (Ok conn, w1) ->
  job_request h j conn name "replace" w1 = (r, w2) ->
  events_of (job_method h j name w)
  = [EvConnect;
     match j with
     | JobStart => EvStartUnit name "replace"
     | JobStop => EvStopUnit name "replace"
     end;
     EvClose]
  /\ world_of (job_method h j name w) = conn_Close h conn w2
  /\ (forall e, r = Err e -> result_of (job_method h j name w) = Some e)
  /\ (forall outcome, r = Ok outcome ->
        (result_of (job_method h j name w) = None <-> outcome = "done")).
Proof.
  intros Hc Hj. destruct r as [outcome | e].
  - assert (Hrun : job_method h j name w
                   = (job_error outcome, conn_Close h conn w2,
                      [EvConnect;
                       match j with
                       | JobStart => EvStartUnit name "replace"
                       | JobStop => EvStopUnit name "replace"
                       end; EvClose])).
    { destruct j; simpl in *.
      - exact (StartService_run h _ _ _ _ _ _ Hc Hj).
      - exact (StopService_run h _ _ _ _ _ _ Hc Hj). }
    rewrite Hrun. unfold events_of, world_of, result_of. cbn [fst snd].
    split; [reflexivity | split; [reflexivity | split; [intros ? [=] |]]].
    intros o [= <-]. apply job_error_nil.
  - assert (Hrun : job_method h j name w
                   = (Some e, conn_Close h conn w2,
                      [EvConnect;
                       match j with
                       | JobStart => EvStartUnit name "replace"
                       | JobStop => EvStopUnit name "replace"
                       end; EvClose])).
    { destruct j; simpl in *.
      - unfold SystemCtl_StartService. rewrite (connect_then h _ _ _ _ Hc), defer_Close_run.
        unfold StartUnitContext. go_unfold. rewrite Hj. reflexivity.
      - unfold SystemCtl_StopService. rewrite (connect_then h _ _ _ _ Hc), defer_Close_run.
        unfold StopUnitContext. go_unfold. rewrite Hj. reflexivity. }
    rewrite Hrun. unfold events_of, world_of, result_of. cbn [fst snd].
    split; [reflexivity | split; [reflexivity | split; [| intros ? [=]]]].
    intros e' [= <-]. reflexivity.
Qed.

Lemma SystemCtl_job_success_iff_done_witness :
  result_of (SystemCtl_StopService Sim.host "ssh.service" Sim.systemd_box) = None
  /\ result_of (SystemCtl_StartService (faulty FaultJob) "ssh.service" Sim.systemd_box)
     = Some refused.
Proof.
  split.
  - destruct (SystemCtl_job_success_iff_done Sim.host JobStop "ssh.service" Sim.systemd_box
                tt Sim.systemd_box _ _ eq_refl eq_refl) as (_ & _ & _ & Hok).
    exact (proj2 (Hok "done" eq_refl) eq_refl).
  - destruct (SystemCtl_job_success_iff_done (faulty FaultJob) JobStart "ssh.service"
                Sim.systemd_box tt Sim.systemd_box _ _ eq_refl eq_refl)
      as (_ & _ & Herr & _).
    exact (Herr _ eq_refl).
Defined.

(** X6.  The two ways [EnableService] of the D-Bus backend gives up after
    connecting.  If the enable-unit-files request fails, its error is
    returned and nothing else is asked: no property read, no start.  If the
    request succeeds but the read of [ActiveState] fails, the read's error
    is returned and no start is attempted, although the unit files have
    been enabled. *)
Theorem SystemCtl_EnableService_gives_up {W Conn} (h : Host W Conn)
    (name : string) (w : W) (conn : Conn) (w1 : W) (r : go_error) (w2 : W) :
  dbus_NewSystemdConnectionContext h w = (Ok conn, w1) ->
  conn_EnableUnitFilesContext h conn [name] false true w1 = (r, w2) ->
  (forall e, r = Some e ->
     SystemCtl_EnableService h name w
     = (Some e, conn_Close h conn w2,
        [EvConnect; EvEnableUnitFiles [name] false true; EvClose]))
  /\ (forall e w3, r = None ->
        conn_GetUnitPropertyContext h conn name "ActiveState" w2 = (Err e, w3) ->
        SystemCtl_EnableService h name w
        = (Some e, conn_Close h conn w3,
           [EvConnect; EvEnableUnitFiles [name] false true;
            EvGetUnitProperty name "ActiveState"; EvClose])).
Proof.
  intros Hc He. split.
  - intros e ->. unfold SystemCtl_EnableService.
    rewrite (connect_then h _ _ _ _ Hc), defer_Close_run.
    unfold EnableUnitFilesContext. go_unfold. rewrite He. reflexivity.
  - intros e w3 -> Hp. unfold SystemCtl_EnableService.
    rewrite (connect_then h _ _ _ _ Hc), defer_Close_run.
    unfold EnableUnitFilesContext, GetUnitPropertyContext. go_unfold.
    rewrite He, Hp. reflexivity.
Qed.

Lemma SystemCtl_EnableService_gives_up_witness :
  SystemCtl_EnableService (faulty FaultEnable) "cron.service" Sim.systemd_box
  = (Some refused, Sim.systemd_box,
     [EvConnect; EvEnableUnitFiles ["cron.service"] false true; EvClose])
  /\ SystemCtl_EnableService (faulty FaultProperty) "cron.service" Sim.systemd_box
     = (Some refused, Sim.systemd_box,
        [EvConnect; EvEnableUnitFiles ["cron.service"] false true;
         EvGetUnitProperty "cron.service" "ActiveState"; EvClose]).
Proof.
  split.
  - exact (proj1 (SystemCtl_EnableService_gives_up (faulty FaultEnable) "cron.service"
                    Sim.systemd_box tt Sim.systemd_box _ Sim.systemd_box eq_refl eq_refl)
                 refused eq_refl).
  - exact (proj2 (SystemCtl_EnableService_gives_up (faulty FaultProperty) "cron.service"
                    Sim.systemd_box tt Sim.systemd_box _ Sim.systemd_box eq_refl eq_refl)
                 refused Sim.systemd_box eq_refl eq_refl).
Defined.

(** X7.  [DisableService] of the D-Bus backend on a unit that is not active.
    Once the properties are read and [ActiveState] is anything but the
    string "active" (a missing key included), the call sends exactly one
    disable-unit-files request for the name, not runtime-only, returns that
    request's error or nil, and neither opens a second connection nor sends
    a stop.  If the properties cannot be read, the read's error is returned
    and nothing is disabled. *)
Theorem SystemCtl_DisableService_inactive {W Conn} (h : Host W Conn)
    (name : string) (w : W) (conn : Conn) (w1 : W)
    (r : result (gmap string GoValue)) (w2 : W) :
  dbus_NewSystemdConnectionContext h w = (Ok conn, w1) ->
  conn_GetUnitPropertiesContext h conn name w1 = (r, w2) ->
  (forall e, r = Err e ->
     SystemCtl_DisableService h name w
     = (Some e, conn_Close h conn w2, [EvConnect; EvGetUnitProperties name; EvClose]))
  /\ (forall properties, r = Ok properties ->
        properties !! "ActiveState" <> Some (VString "active") ->
        SystemCtl_DisableService h name w
        = ((conn_DisableUnitFilesContext h conn [name] false w2).1,
           conn_Close h conn (conn_DisableUnitFilesContext h conn [name] false w2).2,
           [EvConnect; EvGetUnitProperties name; EvDisableUnitFiles [name] false; EvClose])).
Proof.
  intros Hc Hp. split.
  - intros e ->. unfold SystemCtl_DisableService.
    rewrite (connect_then h _ _ _ _ Hc), defer_Close_run.
    unfold GetUnitPropertiesContext. go_unfold. rewrite Hp. reflexivity.
  - intros properties -> Hna.
    rewrite (DisableService_run h name w conn w1 properties w2 Hc Hp).
    rewrite (proj2 (iface_eq_string_false _ _) Hna). reflexivity.
Qed.

Lemma SystemCtl_DisableService_inactive_witness :
  SystemCtl_DisableService Sim.host "cron.service" Sim.systemd_box
  = (None, Sim.systemd_box,
     [EvConnect; EvGetUnitProperties "cron.service";
      EvDisableUnitFiles ["cron.service"] false; EvClose])
  /\ SystemCtl_DisableService Sim.host "ghost.service" Sim.systemd_box
     = (Some (DbusError "no such unit"), Sim.systemd_box,
        [EvConnect; EvGetUnitProperties "ghost.service"; EvClose]).
Proof.
  split.
  - refine (proj2 (SystemCtl_DisableService_inactive Sim.host "cron.service"
                     Sim.systemd_box tt Sim.systemd_box _ Sim.systemd_box eq_refl eq_refl)
                  _ eq_refl _).
    vm_compute. discriminate.
  - exact (proj1 (SystemCtl_DisableService_inactive Sim.host "ghost.service"
                    Sim.systemd_box tt Sim.systemd_box _ Sim.systemd_box eq_refl eq_refl)
                 _ eq_refl).
Defined.

(** [Reload] of the D-Bus backend, once connected, sends one reload
    request, closes the connection and returns what the request returned;
    it waits for no job. *)
Lemma SystemCtl_Reload_run {W Conn} (h : Host W Conn)
    (w : W) (conn : Conn) (w1 : W) (r : go_error) (w2 : W) :
  dbus_NewSystemdConnectionContext h w = (Ok conn, w1) ->
  conn_ReloadContext h conn w1 = (r, w2) ->
  SystemCtl_Reload h w = (r, conn_Close h conn w2, [EvConnect; EvReload; EvClose]).
Proof.
  intros Hc Hr. unfold SystemCtl_Reload.
  rewrite (connect_then h _ _ _ _ Hc), defer_Close_run.
  unfold ReloadContext. go_unfold. rewrite Hr. reflexivity.
Qed.

Lemma SystemCtl_Reload_run_witness :
  SystemCtl_Reload (faulty FaultReload) Sim.systemd_box
  = (Some refused, Sim.systemd_box, [EvConnect; EvReload; EvClose]).
Proof.
  exact (SystemCtl_Reload_run (faulty FaultReload) Sim.systemd_box tt Sim.systemd_box _
           Sim.systemd_box eq_refl eq_refl).
Defined.

(** ** Beyond the claims: which requests a method can send *)

Section Emits.
Context {W : Type}.

Lemma emits_ret {A} (P : Event -> bool) (a : A) : emits P (ret (W := W) a).
Proof. intros w. reflexivity. Qed.

Lemma emits_request {A} (P : Event -> bool) (ev : Event) (f : W -> A * W) :
  P ev = true -> emits P (request ev f).
Proof.
  intros Hev w. unfold request, events_of. destruct (f w) as [a w']. simpl.
  rewrite Hev. reflexivity.
Qed.

Lemma emits_bind {A B} (P : Event -> bool) (m : M W A) (k : A -> M W B) :
  emits P m -> (forall a, emits P (k a)) -> emits P (bind m k).
Proof.
  intros Hm Hk w. unfold bind, events_of. specialize (Hm w). unfold events_of in Hm.
  destruct (m w) as [[a w1] e1]. specialize (Hk a w1). unfold events_of in Hk.
  destruct (k a w1) as [[b w2] e2]. cbn [fst snd] in *.
  rewrite forallb_app, Hm, Hk. reflexivity.
Qed.

Lemma emits_defer {A} (P : Event -> bool) (fin : M W unit) (body : M W A) :
  emits P fin -> emits P body -> emits P (defer fin body).
Proof.
  intros Hf Hb. unfold defer. apply emits_bind; [exact Hb | intros a].
  apply emits_bind; [exact Hf | intros _; apply emits_ret].
Qed.

End Emits.

(** Decompose a method along its binds and branches. *)
Ltac emits_step :=
  first
    [ apply emits_ret
    | apply emits_request; reflexivity
    | apply emits_defer
    | apply emits_bind; [| intros ?]
    | match goal with
      | |- emits _ (match ?x with _ => _ end) => destruct x
      | |- emits _ (if ?x then _ else _) => destruct x
      end ].

Section SystemCtl_emits.
Context {W Conn : Type} (h : Host W Conn).

Lemma SystemCtl_StartService_emits name : emits is_bus (SystemCtl_StartService h name).
Proof.
  unfold SystemCtl_StartService, NewSystemdConnectionContext, StartUnitContext, Close.
  repeat emits_step.
Qed.

Lemma SystemCtl_StopService_emits name : emits is_bus (SystemCtl_StopService h name).
Proof.
  unfold SystemCtl_StopService, NewSystemdConnectionContext, StopUnitContext, Close.
  repeat emits_step.
Qed.

Lemma SystemCtl_IsServiceRunning_emits name : emits is_bus (SystemCtl_IsServiceRunning h name).
Proof.
  unfold SystemCtl_IsServiceRunning, NewSystemdConnectionContext, GetUnitPropertyContext,
    Close.
  repeat emits_step.
Qed.

Lemma SystemCtl_IsServiceEnabled_emits name : emits is_bus (SystemCtl_IsServiceEnabled h name).
Proof.
  unfold SystemCtl_IsServiceEnabled, NewSystemdConnectionContext, GetUnitPropertyContext,
    Close.
  repeat emits_step.
Qed.

Lemma SystemCtl_EnableService_emits name : emits is_bus (SystemCtl_EnableService h name).
Proof.
  unfold SystemCtl_EnableService, NewSystemdConnectionContext, EnableUnitFilesContext,
    GetUnitPropertyContext, Close.
  repeat first [apply SystemCtl_StartService_emits | emits_step].
Qed.

Lemma SystemCtl_DisableService_emits name : emits is_bus (SystemCtl_DisableService h name).
Proof.
  unfold SystemCtl_DisableService, NewSystemdConnectionContext, GetUnitPropertiesContext,
    DisableUnitFilesContext, Close.
  repeat first [apply SystemCtl_StopService_emits | emits_step].
Qed.

Lemma SystemCtl_Reload_emits : emits is_bus (SystemCtl_Reload h).
Proof.
  unfold SystemCtl_Reload, NewSystemdConnectionContext, ReloadContext, Close.
  repeat emits_step.
Qed.

Lemma SystemCtl_probe_files_emits files services :
  emits is_bus (SystemCtl_probe_files h files services).
Proof.
  revert services. induction files as [| file files IH]; intros services; simpl.
  - apply emits_ret.
  - apply emits_bind; [apply SystemCtl_IsServiceRunning_emits | intros r; apply IH].
Qed.

Lemma SystemCtl_ListServices_emits pattern : emits is_bus (SystemCtl_ListServices h pattern).
Proof.
  unfold SystemCtl_ListServices, NewSystemdConnectionContext, ListUnitFilesContext,
    ListUnitFilesByPatternsContext, Close.
  cbv zeta.
  repeat first [apply SystemCtl_probe_files_emits | emits_step].
Qed.

End SystemCtl_emits.

Section OpenRc_emits.
Context {W Conn : Type} (h : Host W Conn).

Lemma RcService_emits name command : emits is_rc_tool (RcService h name command).
Proof.
  unfold RcService, exec_Cmd_Output. cbv zeta. repeat emits_step.
Qed.

Lemma RcUpdate_emits command name runlevel : emits is_rc_tool (RcUpdate h command name runlevel).
Proof.
  unfold RcUpdate, exec_Cmd_Run. cbv zeta. repeat emits_step.
Qed.

Lemma RcServiceStatus_emits name : emits is_rc_tool (RcServiceStatus h name).
Proof.
  unfold RcServiceStatus. repeat first [apply RcService_emits | emits_step].
Qed.

Lemma OpenRc_probe_names_emits svc_list services :
  emits is_rc_tool (OpenRc_probe_names h svc_list services).
Proof.
  revert services. induction svc_list as [| svc_name svc_list IH]; intros services; simpl.
  - apply emits_ret.
  - apply emits_bind; [apply RcServiceStatus_emits | intros r].
    destruct (r.2); [apply emits_ret | apply IH].
Qed.

Lemma OpenRc_ListServices_emits pattern : emits is_rc_tool (OpenRc_ListServices h pattern).
Proof.
  unfold OpenRc_ListServices, RcServiceList. cbv zeta.
  apply emits_bind.
  - repeat first [apply RcService_emits | emits_step].
  - intros l. destruct (l.2); [apply emits_ret |].
    destruct (negb (String.eqb pattern "") && negb (String.eqb pattern "*")).
    + destruct (OpenRc_filter_loop h pattern (length l.1) 0 0 l.1) as [[svc_list n] | e].
      * apply OpenRc_probe_names_emits.
      * apply emits_ret.
    + apply OpenRc_probe_names_emits.
Qed.

End OpenRc_emits.

(** X8.  The two backends keep to their own collaborators, whatever the
    world answers.  No method of the D-Bus backend ever starts a command or
    probes the file system; every request of a method of the command
    backend is a run of [/sbin/rc-service] or [/sbin/rc-update], so it never
    touches the bus.  [IsServiceEnabled] and [Reload] of the command backend
    send no request at all. *)
Theorem backends_keep_apart {W Conn} (h : Host W Conn) (name pattern : string) :
  (emits is_bus (SystemCtl_ListServices h pattern)
   /\ emits is_bus (SystemCtl_IsServiceEnabled h name)
   /\ emits is_bus (SystemCtl_IsServiceRunning h name)
   /\ emits is_bus (SystemCtl_EnableService h name)
   /\ emits is_bus (SystemCtl_DisableService h name)
   /\ emits is_bus (SystemCtl_StartService h name)
   /\ emits is_bus (SystemCtl_StopService h name)
   /\ emits is_bus (SystemCtl_Reload h))
  /\ (emits is_rc_tool (OpenRc_ListServices h pattern)
      /\ emits is_rc_tool (OpenRc_IsServiceRunning h name)
      /\ emits is_rc_tool (OpenRc_EnableService h name)
      /\ emits is_rc_tool (OpenRc_DisableService h name)
      /\ emits is_rc_tool (OpenRc_StartService h name)
      /\ emits is_rc_tool (OpenRc_StopService h name))
  /\ (forall w : W, events_of (OpenRc_IsServiceEnabled name w) = []
                    /\ events_of (OpenRc_Reload w) = []).
Proof.
  split; [| split].
  - repeat split.
    + apply SystemCtl_ListServices_emits.
    + apply SystemCtl_IsServiceEnabled_emits.
    + apply SystemCtl_IsServiceRunning_emits.
    + apply SystemCtl_EnableService_emits.
    + apply SystemCtl_DisableService_emits.
    + apply SystemCtl_StartService_emits.
    + apply SystemCtl_StopService_emits.
    + apply SystemCtl_Reload_emits.
  - repeat split.
    + apply OpenRc_ListServices_emits.
    + apply RcServiceStatus_emits.
    + apply RcUpdate_emits.
    + apply RcUpdate_emits.
    + unfold OpenRc_StartService, RcServiceStart.
      repeat first [apply RcService_emits | emits_step].
    + unfold OpenRc_StopService, RcServiceStop.
      repeat first [apply RcService_emits | emits_step].
  - intros w. split; reflexivity.
Qed.

(** ** Beyond the claims: the requests of a D-Bus listing *)

Section SystemCtl_listing_requests.
Context {W Conn : Type} (h : Host W Conn).







End SystemCtl_listing_requests.



(** ** Beyond the claims: the command backend *)

Section OpenRc_commands.
Context {W Conn : Type} (h : Host W Conn).

Lemma exec_Cmd_Run_rule path args w :
  exit_status_rule path (proc_run h path args w).1 (result_of (exec_Cmd_Run h path args w))
  /\ world_of (exec_Cmd_Run h path args w) = (proc_run h path args w).2
  /\ events_of (exec_Cmd_Run h path args w) = [EvExec path args].
Proof.
  unfold exec_Cmd_Run, exit_status_rule. go_unfold.
  destruct (proc_run h path args w) as [[code out | errno] w']; cbn [fst snd].
  - destruct (Z.eqb_spec code 0) as [-> | Hne]; cbn [fst snd];
      (split; [| split; reflexivity]); repeat split;
      try (intros; congruence); try (intros ? ? [= <- <-] ?; congruence);
      try reflexivity.
  - (split; [| split; reflexivity]); repeat split; intros; congruence.
Qed.

Lemma exec_Cmd_Output_rule path args w :
  exit_status_rule path (proc_run h path args w).1
    (result_of (exec_Cmd_Output h path args w)).2
  /\ world_of (exec_Cmd_Output h path args w) = (proc_run h path args w).2
  /\ events_of (exec_Cmd_Output h path args w) = [EvExec path args].
Proof.
  unfold exec_Cmd_Output, exit_status_rule. go_unfold.
  destruct (proc_run h path args w) as [[code out | errno] w']; cbn [fst snd].
  - destruct (Z.eqb_spec code 0) as [-> | Hne]; cbn [fst snd];
      (split; [| split; reflexivity]); repeat split;
      try (intros; congruence); try (intros ? ? [= <- <-] ?; congruence);
      try reflexivity.
  - (split; [| split; reflexivity]); repeat split; intros; congruence.
Qed.

End OpenRc_commands.

(** X10.  [EnableService] and [DisableService] of the command backend run
    [/sbin/rc-update --quiet add|del <name> default] once.  The name is
    handed over as given: a ".service" suffix is not cut off here, unlike in
    start, stop and status.  The call returns nil when the command exits
    with status zero, an exit error carrying the status when it exits
    otherwise, and the launch error when it cannot be started. *)
Theorem OpenRc_runlevel_update {W Conn} (h : Host W Conn) (enable : bool)
    (name : string) (w : W) (o : ProcOutcome) (w' : W) :
  let args := ["--quiet"; if enable then "add" else "del"; name; "default"] in
  let run := (if enable then OpenRc_EnableService h name else OpenRc_DisableService h name) w in
  proc_run h rc_update args w = (o, w') ->
  events_of run = [EvExec rc_update args]
  /\ world_of run = w'
  /\ exit_status_rule rc_update o (result_of run).
Proof.
  intros args run Hrun.
  destruct (exec_Cmd_Run_rule h rc_update args w) as (Hrule & Hworld & Hev).
  rewrite Hrun in Hrule, Hworld. cbn [fst snd] in Hrule, Hworld.
  assert (E : run = exec_Cmd_Run h rc_update args w).
  { subst run args. unfold OpenRc_EnableService, OpenRc_DisableService, RcUpdate, rc_update.
    unfold bind, ret.
    destruct enable;
      match goal with
      | |- context [exec_Cmd_Run h ?p ?a w] =>
          destruct (exec_Cmd_Run h p a w) as [[[e |] w1] evs]
      end; rewrite ?app_nil_r; reflexivity. }
  rewrite E. auto.
Qed.

Lemma OpenRc_runlevel_update_witness :
  OpenRc_EnableService Sim.host "cron.service" Sim.openrc_box
  = (Some (ExitError 1), Sim.openrc_box,
     [EvExec rc_update ["--quiet"; "add"; "cron.service"; "default"]])
  /\ result_of (OpenRc_DisableService Sim.host "cron" broken_rc_box)
     = Some (PathError "fork/exec" rc_update ENOENT).
Proof.
  split.
  - destruct (OpenRc_runlevel_update Sim.host true "cron.service" Sim.openrc_box
                (Exited 1 []) Sim.openrc_box eq_refl) as (Hev & Hw & _ & Hcode & _).
    specialize (Hcode 1%Z [] eq_refl).
    destruct (OpenRc_EnableService Sim.host "cron.service" Sim.openrc_box) as [[r w1] evs].
    unfold events_of, world_of, result_of in *. cbn [fst snd] in *.
    rewrite Hev, Hw, Hcode by lia. reflexivity.
  - destruct (OpenRc_runlevel_update Sim.host false "cron" broken_rc_box
                (StartFailed ENOENT) broken_rc_box eq_refl) as (_ & _ & _ & _ & Hfail).
    exact (Hfail ENOENT eq_refl).
Defined.

(** X11.  [StartService] and [StopService] of the command backend run
    [/sbin/rc-service --quiet <name> start|stop] once, with one ".service"
    suffix cut off the name.  Here a non-zero exit is a failure: the call
    returns nil only when the command exits with status zero, an exit error
    carrying the status otherwise, and the launch error when the command
    cannot be started. *)
Theorem OpenRc_start_stop_exit_status {W Conn} (h : Host W Conn) (j : Job)
    (name : string) (w : W) (o : ProcOutcome) (w' : W) :
  let args := ["--quiet"; stripped name;
               match j with JobStart => "start" | JobStop => "stop" end] in
  let run := match j with
             | JobStart => OpenRc_StartService h name
             | JobStop => OpenRc_StopService h name
             end w in
  proc_run h rc_service args w = (o, w') ->
  events_of run = [EvExec rc_service args]
  /\ world_of run = w'
  /\ exit_status_rule rc_service o (result_of run).
Proof.
  intros args run Hrun.
  destruct (exec_Cmd_Output_rule h rc_service args w) as (Hrule & Hworld & Hev).
  rewrite Hrun in Hrule, Hworld. cbn [fst snd] in Hrule, Hworld.
  assert (E : events_of run = events_of (exec_Cmd_Output h rc_service args w)
              /\ world_of run = world_of (exec_Cmd_Output h rc_service args w)
              /\ result_of run = (result_of (exec_Cmd_Output h rc_service args w)).2).
  { subst run args.
    unfold OpenRc_StartService, OpenRc_StopService, RcServiceStart, RcServiceStop,
      RcService, stripped, unit_suffix, rc_service.
    unfold bind, ret, events_of, world_of, result_of.
    destruct j; simpl;
      match goal with
      | |- context [exec_Cmd_Output h ?p ?a w] =>
          destruct (exec_Cmd_Output h p a w) as [[[out [e |]] w1] evs]
      end; cbn [fst snd]; rewrite ?app_nil_r; auto. }
  destruct E as (E1 & E2 & E3). rewrite E1, E2, E3. auto.
Qed.

Lemma OpenRc_start_stop_exit_status_witness :
  result_of (OpenRc_StartService Sim.host "cron.service" Sim.openrc_box) = None
  /\ result_of (OpenRc_StopService Sim.host "cron.service" broken_rc_box)
     = Some (PathError "fork/exec" rc_service ENOENT).
Proof.
  split.
  - destruct (OpenRc_start_stop_exit_status Sim.host JobStart "cron.service"
                Sim.openrc_box (Exited 0 []) _ eq_refl) as (_ & _ & Hzero & _).
    exact (Hzero [] eq_refl).
  - destruct (OpenRc_start_stop_exit_status Sim.host JobStop "cron.service"
                broken_rc_box (StartFailed ENOENT) _ eq_refl) as (_ & _ & _ & _ & Hfail).
    exact (Hfail ENOENT eq_refl).
Defined.

Section OpenRc_listing.
Context {W Conn : Type} (h : Host W Conn).

Lemma RcService_list_run_all w :
  RcService h "" cmdList w
  = (match (proc_run h rc_service ["--list"] w).1 with
     | Exited code out =>
       if (code =? 0)%Z then (out, None) else ([], Some (ExitError code))
     | StartFailed errno => ([], Some (PathError "fork/exec" rc_service errno))
     end,
     (proc_run h rc_service ["--list"] w).2,
     [EvExec rc_service ["--list"]]).
Proof.
  unfold RcService, exec_Cmd_Output, rc_service. go_unfold. simpl.
  destruct (proc_run h _ _ w) as [[code out | errno] w1]; cbn [fst snd]; [| reflexivity].
  destruct (code =? 0)%Z; reflexivity.
Qed.

(** The list command and what [RcServiceList] makes of its end. *)
Lemma RcServiceList_run w :
  RcServiceList h w
  = (match (proc_run h rc_service ["--list"] w).1 with
     | Exited code out =>
       if (code =? 0)%Z then ([fmt_Sprint out], None) else ([], Some (ExitError code))
     | StartFailed errno => ([], Some (PathError "fork/exec" rc_service errno))
     end,
     (proc_run h rc_service ["--list"] w).2,
     [EvExec rc_service ["--list"]]).
Proof.
  unfold RcServiceList, bind. rewrite RcService_list_run_all.
  destruct (proc_run h rc_service ["--list"] w) as [[code out | errno] w1];
    cbn [fst snd]; [| reflexivity].
  destruct (code =? 0)%Z; cbn [fst snd]; [| reflexivity].
  unfold ret.
  rewrite (strings_Split_free_of_newline _ (fmt_Sprint_free_of_newline out)). reflexivity.
Qed.

(** The probing loop: either every probe could be started, and the
    descriptors record which ones exited with status zero, or the first
    probe that could not be started ends the loop with an empty list. *)
Lemma OpenRc_probe_names_spec svc_list acc w :
  (exists services w',
     OpenRc_probe_names h svc_list acc w
     = ((acc ++ services, None), w',
        map (fun name => EvExec rc_service (status_args name)) svc_list)
     /\ rc_probed h w svc_list services w')
  \/ (exists errno,
        result_of (OpenRc_probe_names h svc_list acc w)
        = ([], Some (PathError "fork/exec" rc_service errno))).
Proof.
  revert acc w. induction svc_list as [| name names IH]; intros acc w.
  - left. exists [], w. simpl. unfold ret. rewrite app_nil_r.
    split; [reflexivity | constructor].
  - simpl. unfold bind, OpenRc_IsServiceRunning. rewrite RcServiceStatus_run.
    destruct (proc_run h rc_service (status_args name) w) as [[code out | errno] w1] eqn:Hp;
      cbn [fst snd].
    + destruct (IH (acc ++ [{| Name := name; Running := bool_decide (code = 0%Z) |}]) w1)
        as [(services & w' & Hrun & Hprobed) | (errno & Herr)].
      * left.
        exists ({| Name := name; Running := bool_decide (code = 0%Z) |} :: services), w'.
        rewrite Hrun. rewrite <- app_assoc. split; [reflexivity |].
        econstructor; [exact Hp | exact Hprobed].
      * right. exists errno. unfold result_of in *.
        destruct (OpenRc_probe_names h names _ w1) as [[r w2] evs]. cbn [fst snd] in *.
        exact Herr.
    + right. exists errno. reflexivity.
Qed.

(** The filtering loop stops at the first name on which [filepath.Match]
    raises an error. *)
Lemma OpenRc_filter_loop_first_error pattern good bad rest e todo i n svc_list :
  (forall x, x ∈ good -> (filepath_Match h pattern x).2 = None) ->
  (filepath_Match h pattern bad).2 = Some e ->
  i + todo = length (good ++ bad :: rest) ->
  i <= length good ->
  n <= i ->
  drop i svc_list = drop i (good ++ bad :: rest) ->
  OpenRc_filter_loop h pattern todo i n svc_list = Err e.
Proof.
  intros Hgood Hbad. revert i n svc_list.
  induction todo as [| todo IH]; intros i n svc_list Hlen Hi Hn Hdrop.
  - rewrite length_app in Hlen. simpl in Hlen. lia.
  - simpl.
    assert (Hlook : svc_list !! i = (good ++ bad :: rest) !! i).
    { rewrite <- (Nat.add_0_r i), <- !lookup_drop, Hdrop. reflexivity. }
    rewrite Hlook.
    destruct (decide (i = length good)) as [-> | Hne].
    + rewrite list_lookup_middle by reflexivity.
      destruct (filepath_Match h pattern bad) as [matched err]. simpl in Hbad.
      subst err. reflexivity.
    + assert (Hlt : i < length good) by lia.
      destruct (lookup_lt_is_Some_2 good i Hlt) as [x Hx].
      rewrite (lookup_app_l_Some _ _ _ _ Hx).
      assert (Hok : (filepath_Match h pattern x).2 = None)
        by (apply Hgood; apply list_elem_of_lookup; eauto).
      destruct (filepath_Match h pattern x) as [matched err]. simpl in Hok. subst err.
      assert (Hdrop' : drop (S i) svc_list = drop (S i) (good ++ bad :: rest)).
      { rewrite <- (Nat.add_1_r i), <- !drop_drop, Hdrop. reflexivity. }
      destruct matched; apply IH; try lia; try assumption.
      rewrite drop_insert_lt by lia. exact Hdrop'.
Qed.

End OpenRc_listing.

Section OpenRc_listing_facts.
Context {W Conn : Type} (h : Host W Conn).

Lemma rc_probed_names w names services w' :
  rc_probed h w names services w' -> map Name services = names.
Proof. induction 1; simpl; congruence. Qed.

Lemma OpenRc_filter_loop_error pattern todo i n svc_list e :
  OpenRc_filter_loop h pattern todo i n svc_list = Err e ->
  exists name, (filepath_Match h pattern name).2 = Some e.
Proof.
  revert i n svc_list. induction todo as [| todo IH]; intros i n svc_list; simpl.
  - discriminate.
  - destruct (svc_list !! i) as [x |]; [| discriminate].
    destruct (filepath_Match h pattern x) as [matched err] eqn:Hm.
    destruct err as [e' |].
    + intros [= <-]. exists x. rewrite Hm. reflexivity.
    + destruct matched; apply IH.
Qed.

(** The names [ListServices] goes on to probe, when it gets that far. *)
Lemma OpenRc_ListServices_probing pattern w known w1 evs :
  RcServiceList h w = ((known, None), w1, evs) ->
  (exists e, (exists name, (filepath_Match h pattern name).2 = Some e)
             /\ universal pattern = false
             /\ OpenRc_filter_loop h pattern (length known) 0 0 known = Err e
             /\ OpenRc_ListServices h pattern w = (([], Some e), w1, evs))
  \/ (exists names,
        OpenRc_ListServices h pattern w
        = (result_of (OpenRc_probe_names h names [] w1),
           world_of (OpenRc_probe_names h names [] w1),
           evs ++ events_of (OpenRc_probe_names h names [] w1))).
Proof.
  intros Hlist. unfold OpenRc_ListServices, universal, bind. rewrite Hlist. cbn [fst snd].
  destruct (String.eqb pattern ""), (String.eqb pattern "*"); cbn [negb andb orb];
    try (right; exists known;
         destruct (OpenRc_probe_names h known [] w1) as [[r w2] evs2]; reflexivity).
  destruct (OpenRc_filter_loop h pattern (length known) 0 0 known)
    as [[svc_list n] | e] eqn:Hloop.
  - right. exists (take n svc_list).
    destruct (OpenRc_probe_names h (take n svc_list) [] w1) as [[r w2] evs2]. reflexivity.
  - left. exists e. split; [exact (OpenRc_filter_loop_error _ _ _ _ _ _ Hloop) |].
    unfold ret. rewrite app_nil_r. auto.
Qed.

Lemma OpenRc_ListServices_error_empty pattern w services e :
  result_of (OpenRc_ListServices h pattern w) = (services, Some e) ->
  services = []
  /\ ((exists code out, (proc_run h rc_service ["--list"] w).1 = Exited code out
                        /\ code <> 0%Z /\ e = ExitError code)
      \/ (exists errno, e = PathError "fork/exec" rc_service errno)
      \/ (exists name, (filepath_Match h pattern name).2 = Some e)).
Proof.
  pose proof (RcServiceList_run h w) as Hlist.
  destruct (proc_run h rc_service ["--list"] w) as [[code out | errno] w1] eqn:Hp;
    cbn [fst snd] in Hlist.
  - destruct (Z.eqb_spec code 0) as [-> | Hne].
    + destruct (OpenRc_ListServices_probing pattern w _ _ _ Hlist)
        as [(e' & Hm & _ & _ & Hrun) | (names & Hrun)]; rewrite Hrun.
      * unfold result_of. cbn [fst snd]. intros [= <- <-]. auto.
      * unfold result_of at 1. cbn [fst snd].
        destruct (OpenRc_probe_names_spec h names [] w1)
          as [(svcs & w2 & Hok & _) | (errno & Herr)].
        -- rewrite Hok. unfold result_of. cbn [fst snd]. discriminate.
        -- rewrite Herr. intros [= <- <-]. split; [reflexivity |]. right. left. eauto.
    + unfold OpenRc_ListServices, bind. rewrite Hlist. unfold result_of, ret.
      cbn [fst snd]. intros [= <- <-]. split; [reflexivity |]. left.
      exists code, out. auto.
  - unfold OpenRc_ListServices, bind. rewrite Hlist. unfold result_of, ret.
    cbn [fst snd]. intros [= <- <-]. split; [reflexivity |]. right. left. eauto.
Qed.

End OpenRc_listing_facts.

(** X12.  A listing on the command backend that succeeds has run the
    status command once for each descriptor it returns, in order, after the
    list command.  Every one of these probes could be started, and a
    descriptor is running exactly when its probe exited with status zero: a
    non-zero exit of the status command makes the entry not running and is
    no error. *)
Theorem OpenRc_ListServices_probes {W Conn} (h : Host W Conn) (pattern : string)
    (w : W) (known : list string) (w1 : W) (evs : list Event)
    (services : list InitService) :
  RcServiceList h w = ((known, None), w1, evs) ->
  result_of (OpenRc_ListServices h pattern w) = (services, None) ->
  rc_probed h w1 (map Name services) services (world_of (OpenRc_ListServices h pattern w))
  /\ events_of (OpenRc_ListServices h pattern w)
     = evs ++ map (fun name => EvExec rc_service (status_args name)) (map Name services).
Proof.
  intros Hlist.
  destruct (OpenRc_ListServices_probing h pattern w _ _ _ Hlist)
    as [(e' & _ & _ & _ & Hrun) | (names & Hrun)]; rewrite Hrun.
  - unfold result_of. cbn [fst snd]. discriminate.
  - destruct (OpenRc_probe_names_spec h names [] w1)
      as [(svcs & w2 & Hok & Hprobed) | (errno & Herr)].
    + rewrite Hok. unfold result_of, world_of, events_of. cbn [fst snd].
      intros [= <-]. rewrite (rc_probed_names h _ _ _ _ Hprobed). auto.
    + unfold result_of at 1. cbn [fst snd]. rewrite Herr. discriminate.
Qed.

Lemma OpenRc_ListServices_probes_witness :
  events_of (OpenRc_ListServices Sim.host "" Sim.openrc_box)
  = [EvExec rc_service ["--list"];
     EvExec rc_service ["--quiet"; "[115 115 104 100 10 99 114 111 110 10]"; "status"]].
Proof.
  exact (proj2 (OpenRc_ListServices_probes Sim.host "" Sim.openrc_box _ Sim.openrc_box _ _
                  eq_refl eq_refl)).
Defined.

(** X13.  A listing on the command backend never returns a partial list:
    whenever it returns an error the list is empty.  The error is the exit
    error of the list command (which exited non-zero), a launch error of
    [/sbin/rc-service], or an error [filepath.Match] raised on the pattern;
    a status command that exits non-zero is never the cause. *)
Theorem OpenRc_ListServices_all_or_nothing {W Conn} (h : Host W Conn) (pattern : string)
    (w : W) (services : list InitService) (e : error) :
  result_of (OpenRc_ListServices h pattern w) = (services, Some e) ->
  services = []
  /\ ((exists code out, (proc_run h rc_service ["--list"] w).1 = Exited code out
                        /\ code <> 0%Z /\ e = ExitError code)
      \/ (exists errno, e = PathError "fork/exec" rc_service errno)
      \/ (exists name, (filepath_Match h pattern name).2 = Some e)).
Proof. apply OpenRc_ListServices_error_empty. Qed.

Lemma OpenRc_ListServices_all_or_nothing_witness :
  result_of (OpenRc_ListServices Sim.host "" broken_rc_box)
  = ([], Some (PathError "fork/exec" rc_service ENOENT))
  /\ ((exists code out,
         (proc_run Sim.host rc_service ["--list"] broken_rc_box).1 = Exited code out
         /\ code <> 0%Z /\ PathError "fork/exec" rc_service ENOENT = ExitError code)
      \/ (exists errno,
            PathError "fork/exec" rc_service ENOENT = PathError "fork/exec" rc_service errno)
      \/ (exists name,
            (filepath_Match Sim.host "" name).2
            = Some (PathError "fork/exec" rc_service ENOENT))).
Proof.
  split; [reflexivity |].
  exact (proj2 (OpenRc_ListServices_all_or_nothing Sim.host "" broken_rc_box [] _ eq_refl)).
Defined.

(** X14.  A pattern that [filepath.Match] rejects stops a listing on the
    command backend before any probe: if, going through the known names in
    order, the first error [filepath.Match] raises is [e], the call returns
    [e] with an empty list, having run the list command and nothing else.
    For the patterns "" and "*" [filepath.Match] is never consulted. *)
Theorem OpenRc_ListServices_bad_pattern {W Conn} (h : Host W Conn) (pattern : string)
    (w : W) (good : list string) (bad : string) (rest : list string)
    (w1 : W) (evs : list Event) (e : error) :
  RcServiceList h w = ((good ++ bad :: rest, None), w1, evs) ->
  pattern <> "" -> pattern <> "*" ->
  (forall name, name ∈ good -> (filepath_Match h pattern name).2 = None) ->
  (filepath_Match h pattern bad).2 = Some e ->
  OpenRc_ListServices h pattern w = (([], Some e), w1, evs).
Proof.
  intros Hlist H1 H2 Hgood Hbad.
  unfold OpenRc_ListServices, bind. rewrite Hlist. cbn [fst snd].
  rewrite (proj2 (String.eqb_neq _ _) H1), (proj2 (String.eqb_neq _ _) H2).
  cbn [negb andb].
  rewrite (OpenRc_filter_loop_first_error h pattern good bad rest e _ 0 0 _ Hgood Hbad)
    by (try reflexivity; lia).
  unfold ret. rewrite app_nil_r. reflexivity.
Qed.

Lemma OpenRc_ListServices_bad_pattern_witness :
  OpenRc_ListServices Sim.host "[a-" Sim.openrc_box
  = (([], Some ErrBadPattern), Sim.openrc_box, [EvExec rc_service ["--list"]]).
Proof.
  refine (OpenRc_ListServices_bad_pattern Sim.host "[a-" Sim.openrc_box []
            "[115 115 104 100 10 99 114 111 110 10]" [] Sim.openrc_box _ ErrBadPattern
            eq_refl _ _ _ eq_refl).
  - discriminate.
  - discriminate.
  - intros name Hin. apply elem_of_nil in Hin. destruct Hin.
Defined.

(** X15.  Because the list command's output goes through [fmt.Sprint], a
    listing on the command backend returns at most one descriptor, whatever
    the command printed and whatever the pattern, and the name of that
    descriptor is the bracketed decimal rendering of the output bytes. *)
Theorem OpenRc_ListServices_at_most_one {W Conn} (h : Host W Conn) (pattern : string)
    (w : W) :
  length (result_of (OpenRc_ListServices h pattern w)).1 <= 1
  /\ (forall svc, svc ∈ (result_of (OpenRc_ListServices h pattern w)).1 ->
        exists code out, (proc_run h rc_service ["--list"] w).1 = Exited code out
                         /\ Name svc = fmt_Sprint out).
Proof.
  destruct (result_of (OpenRc_ListServices h pattern w)) as [services [e |]] eqn:Hres.
  - destruct (OpenRc_ListServices_error_empty h pattern w services e Hres) as [-> _].
    cbn [fst]. split; [simpl; lia |]. intros svc Hin. apply elem_of_nil in Hin.
    destruct Hin.
  - cbn [fst].
    pose proof (RcServiceList_run h w) as Hlist.
    destruct (proc_run h rc_service ["--list"] w) as [[code out | errno] w1] eqn:Hp;
      cbn [fst snd] in Hlist.
    + destruct (code =? 0)%Z.
      * pose proof (OpenRc_ListServices_names h pattern w _ _ _ services Hlist Hres)
          as Hnames.
        assert (Hsub : forall name, name ∈ map Name services -> name = fmt_Sprint out).
        { intros name Hin. rewrite Hnames in Hin. destruct (universal pattern).
          - apply list_elem_of_singleton in Hin. exact Hin.
          - apply list_elem_of_In, List.filter_In in Hin. destruct Hin as [Hin _].
            destruct Hin as [<- | []]. reflexivity. }
        assert (Hlen : length (map Name services) <= 1).
        { rewrite Hnames. destruct (universal pattern); simpl; [lia |].
          destruct ((filepath_Match h pattern (fmt_Sprint out)).1); simpl; lia. }
        rewrite length_map in Hlen. split; [exact Hlen |].
        intros svc Hin. exists code, out. split; [reflexivity |].
        apply Hsub. apply list_elem_of_fmap. eauto.
      * exfalso. revert Hres. unfold OpenRc_ListServices, bind. rewrite Hlist.
        unfold result_of, ret. cbn [fst snd]. discriminate.
    + exfalso. revert Hres. unfold OpenRc_ListServices, bind. rewrite Hlist.
      unfold result_of, ret. cbn [fst snd]. discriminate.
Qed.
